(** * The ERC-4626 deposit planner of [erc4626-deposit/index.ts]

    [deposit] validates a request, reads the ledger through a public client,
    builds the deposit transaction and, when a wallet client is supplied,
    sends it and waits for the receipt.  The function is modelled as a finite
    tree of awaited remote calls; a handler (the clients and the chain behind
    them) answers the calls, and [run] records what was asked and answered.

    After the planner come the account manager of [anvil-utils.ts] and the
    logic of the claim application ([erc1155-claim]), modelled the same way
    with a continuation that sees rejections, since that code catches. *)

From Stdlib Require Import ZArith String HexString List Bool Lia Permutation.
From ExtLib Require Import Structures.Monad.
Import ListNotations.
Import MonadNotation.

Local Open Scope Z_scope.
Local Open Scope monad_scope.

(** ** Data model *)

(** [`0x${string}`]: addresses, call data and hashes are JavaScript strings. *)
Definition Address : Type := string.
Definition Hex : Type := string.

Definition ZERO_ADDRESS : Address :=
  "0x0000000000000000000000000000000000000000"%string.

(** [type Transaction]; the [bigint] fields are unbounded integers. *)
Record Transaction : Type := {
  data : Hex;
  from : Address;
  to : Address;
  value : Z;
  gas : Z
}.

(** The receipt is [any] in the source; these are the fields the test suite
    reads from it. *)
Inductive Status : Type := success | reverted.

Record Receipt : Type := {
  status : Status;
  receipt_from : Address;
  receipt_to : Address
}.

(** [type DepositResult]. *)
Record DepositResult : Type := {
  hash : Hex;
  receipt : Receipt
}.

(** The five error classes of [index.ts]; [LibraryError] stands for whatever
    viem throws itself (a rejected remote call, an encoding failure). *)
Inductive Error : Type :=
| NotEnoughBalanceError
| MissingAllowanceError
| AmountExceedsMaxDepositError
| InvalidAmountError
| InvalidReceiverError
| LibraryError (reason : string).

Definition is_domain_error (e : Error) : bool :=
  match e with
  | LibraryError _ => false
  | _ => true
  end.

(** A synchronous call returns or throws; an awaited promise is fulfilled or
    rejected. *)
Inductive completion (X : Type) : Type :=
| Normal (x : X)
| Abrupt (reason : string).
Arguments Normal {X} x.
Arguments Abrupt {X} reason.

Inductive outcome (R : Type) : Type :=
| Returned (r : R)
| Threw (e : Error).
Arguments Returned {R} r.
Arguments Threw {R} e.

Section Planner.

(** The optional [walletClient] is an opaque capability. *)
Context {WalletClient : Type}.

(** [type DepositParams]. *)
Record DepositParams : Type := {
  wallet : Address;
  vault : Address;
  amount : Z;
  walletClient : option WalletClient
}.

(** ** Remote calls

    Every [await] of [deposit], with the arguments the source passes. *)
Inductive call : Type -> Type :=
| read_asset (vault : Address) : call Address
| read_balanceOf (asset wallet : Address) : call Z
| read_allowance (asset wallet vault : Address) : call Z
| read_maxDeposit (vault wallet : Address) : call Z
| estimateGas (account to : Address) (data : Hex) : call Z
| sendTransaction (wc : WalletClient) (tx : Transaction) (account : Address) : call Hex
| waitForTransactionReceipt (hash : Hex) : call Receipt.

(** An [async] function body: it returns, throws, or awaits a remote call
    and continues with the answer. *)
Inductive async (R : Type) : Type :=
| Return (r : R)
| Throw (e : Error)
| Await {X : Type} (c : call X) (k : X -> async R).
Arguments Return {R} r.
Arguments Throw {R} e.
Arguments Await {R X} c k.

Fixpoint async_bind {A B : Type} (m : async A) (f : A -> async B) : async B :=
  match m with
  | Return a => f a
  | Throw e => Throw e
  | Await c k => Await c (fun x => async_bind (k x) f)
  end.

#[export] Instance Monad_async : Monad async :=
  {| ret := @Return; bind := @async_bind |}.

Definition await {X : Type} (c : call X) : async X := Await c Return.

(** A synchronous library call inside the body: its exception propagates. *)
Definition eval {X : Type} (r : completion X) : async X :=
  match r with
  | Normal x => Return x
  | Abrupt reason => Throw (LibraryError reason)
  end.

(** ** [deposit] *)

(** viem's [encodeFunctionData({abi: erc4626Abi, functionName: "deposit",
    args: [amount, wallet]})]: a pure function of its two arguments, which
    throws on arguments it cannot encode. *)
Variable encodeFunctionData : Z -> Address -> completion Hex.

Definition deposit (params : DepositParams) : async (Transaction + DepositResult) :=
  let wallet := wallet params in
  let vault := vault params in
  let amount := amount params in
  if amount <=? 0 then Throw InvalidAmountError else
  if (wallet =? ZERO_ADDRESS)%string then Throw InvalidReceiverError else
  if (vault =? ZERO_ADDRESS)%string then Throw InvalidReceiverError else
  asset <- await (read_asset vault) ;;
  balance <- await (read_balanceOf asset wallet) ;;
  if balance <? amount then Throw NotEnoughBalanceError else
  allowance <- await (read_allowance asset wallet vault) ;;
  if allowance <? amount then Throw MissingAllowanceError else
  maxDeposit <- await (read_maxDeposit vault wallet) ;;
  if maxDeposit <? amount then Throw AmountExceedsMaxDepositError else
  estimateData <- eval (encodeFunctionData amount wallet) ;;
  gasEstimate <- await (estimateGas wallet vault estimateData) ;;
  txData <- eval (encodeFunctionData amount wallet) ;;
  let depositTx :=
    {| to := vault;
       from := wallet;
       data := txData;
       value := 0;
       gas := gasEstimate + (gasEstimate * 10) ÷ 100 |} in
  match walletClient params with
  | Some wc =>
      hash <- await (sendTransaction wc depositTx wallet) ;;
      receipt <- await (waitForTransactionReceipt hash) ;;
      ret (inr {| hash := hash; receipt := receipt |})
  | None => ret (inl depositTx)
  end.

(** ** Running a body against the outside world *)

(** One awaited call and how it settled. *)
Inductive entry : Type :=
| Entry {X : Type} (c : call X) (r : completion X).

Definition trace : Type := list entry.

Section Run.

Context {World : Type}.

(** The clients: each call is answered from the current state of the world,
    which it may change. *)
Variable handle : forall X : Type, call X -> World -> completion X * World.

Fixpoint run {R : Type} (p : async R) (w : World) : outcome R * trace * World :=
  match p with
  | Return r => (Returned r, [], w)
  | Throw e => (Threw e, [], w)
  | Await c k =>
      match handle _ c w with
      | (Normal x, w1) =>
          let '(o, tr, w2) := run (k x) w1 in (o, Entry c (Normal x) :: tr, w2)
      | (Abrupt reason, w1) =>
          (Threw (LibraryError reason), [Entry c (Abrupt reason)], w1)
      end
  end.

End Run.

End Planner.

Arguments Return {WalletClient R} r.
Arguments Throw {WalletClient R} e.
Arguments Await {WalletClient R X} c k.
Arguments Entry {WalletClient X} c r.

(** ** What a trace shows *)

Section Observations.

Context {WalletClient : Type}.

(** The four contract reads ([vaultContract.read.*], [assetContract.read.*]). *)
Definition is_read {X : Type} (c : @call WalletClient X) : bool :=
  match c with
  | read_asset _ | read_balanceOf _ _ | read_allowance _ _ _
  | read_maxDeposit _ _ => true
  | _ => false
  end.

Definition entry_is_read (e : @entry WalletClient) : bool :=
  match e with Entry c _ => is_read c end.

(** The descriptor handed to [walletClient.sendTransaction], if the entry is
    such a call (however it settled). *)
Definition entry_sent (e : @entry WalletClient) : option Transaction :=
  match e with
  | Entry (sendTransaction _ tx _) _ => Some tx
  | Entry _ _ => None
  end.


(** The value a fulfilled [client.estimateGas] answered. *)
Definition entry_estimate (e : @entry WalletClient) : option Z :=
  match e with
  | Entry c r =>
      match c in call X return completion X -> option Z with
      | estimateGas _ _ _ =>
          fun r => match r with Normal g => Some g | Abrupt _ => None end
      | _ => fun _ => None
      end r
  end.

Fixpoint collect {A B : Type} (f : A -> option B) (l : list A) : list B :=
  match l with
  | [] => []
  | a :: l' =>
      match f a with
      | Some b => b :: collect f l'
      | None => collect f l'
      end
  end.

Definition sent_transactions (tr : @trace WalletClient) : list Transaction :=
  collect entry_sent tr.


Definition gas_estimates (tr : @trace WalletClient) : list Z :=
  collect entry_estimate tr.

(** The descriptor a successful run built: the one it returned, or the one
    it submitted. *)
Definition descriptors (r : Transaction + DepositResult)
    (tr : @trace WalletClient) : list Transaction :=
  match r with
  | inl tx => [tx]
  | inr _ => sent_transactions tr
  end.

End Observations.

(** ** A small simulated node

    A concrete world on which the model is exercised: one vault, one
    depositor, and a pool of submitted transactions. *)

Module Sample.

Definition left_pad (n : nat) (s : string) : string :=
  (String.concat "" (repeat "0" (n - String.length s)) ++ s)%string.

Definition hex_of_Z (z : Z) : string :=
  match z with
  | Zpos p => HexString.Raw.of_pos p ""
  | _ => "0"%string
  end.

(** A stand-in for viem's encoder with the layout of the ABI encoding of
    [deposit(uint256,address)]: selector, amount word, receiver word. *)
Definition encode (amount : Z) (receiver : Address) : completion Hex :=
  if (amount <? 0) || (2 ^ 256 <=? amount) then Abrupt "IntegerOutOfRangeError"
  else if negb (String.length receiver =? 42)%nat then Abrupt "InvalidAddressError"
  else Normal ("0x6e553f65" ++ left_pad 64 (hex_of_Z amount)
                 ++ left_pad 64 (substring 2 40 receiver))%string.

Record Chain : Type := {
  chain_asset : Address;
  chain_balance : Z;
  chain_allowance : Z;
  chain_maxDeposit : Z;
  chain_gas : Z;
  chain_mines : Status;
  chain_pool : list Transaction
}.

Definition submit (tx : Transaction) (w : Chain) : Chain :=
  {| chain_asset := chain_asset w;
     chain_balance := chain_balance w;
     chain_allowance := chain_allowance w;
     chain_maxDeposit := chain_maxDeposit w;
     chain_gas := chain_gas w;
     chain_mines := chain_mines w;
     chain_pool := tx :: chain_pool w |}.

Definition node (X : Type) (c : @call unit X) (w : Chain) : completion X * Chain :=
  match c in call X return completion X * Chain with
  | read_asset _ => (Normal (chain_asset w), w)
  | read_balanceOf _ _ => (Normal (chain_balance w), w)
  | read_allowance _ _ _ => (Normal (chain_allowance w), w)
  | read_maxDeposit _ _ => (Normal (chain_maxDeposit w), w)
  | estimateGas _ _ _ => (Normal (chain_gas w), w)
  | sendTransaction _ tx _ => (Normal "0x5e9d"%string, submit tx w)
  | waitForTransactionReceipt _ =>
      match chain_pool w with
      | tx :: _ =>
          (Normal {| status := chain_mines w;
                     receipt_from := from tx;
                     receipt_to := to tx |}, w)
      | [] => (Abrupt "TransactionReceiptNotFoundError", w)
      end
  end.

Definition alice : Address := "0xf39fd6e51aad88f6f4ce6ab8827279cfffb92266"%string.
Definition usdc : Address := "0x5fbdb2315678afecb367f032d93f642f64180aa3"%string.
Definition simpleVault : Address := "0xe7f1725e7734ce288f8367e1bb143e90bb3f0512"%string.

(** 1000 USDC held and approved, an unlimited vault, 90 005 gas. *)
Definition funded (mines : Status) : Chain :=
  {| chain_asset := usdc;
     chain_balance := 1000000000;
     chain_allowance := 1000000000;
     chain_maxDeposit := 2 ^ 256 - 1;
     chain_gas := 90005;
     chain_mines := mines;
     chain_pool := [] |}.

Definition with_balance (b : Z) (w : Chain) : Chain :=
  {| chain_asset := chain_asset w;
     chain_balance := b;
     chain_allowance := chain_allowance w;
     chain_maxDeposit := chain_maxDeposit w;
     chain_gas := chain_gas w;
     chain_mines := chain_mines w;
     chain_pool := chain_pool w |}.

Definition with_allowance (a : Z) (w : Chain) : Chain :=
  {| chain_asset := chain_asset w;
     chain_balance := chain_balance w;
     chain_allowance := a;
     chain_maxDeposit := chain_maxDeposit w;
     chain_gas := chain_gas w;
     chain_mines := chain_mines w;
     chain_pool := chain_pool w |}.

Definition with_maxDeposit (m : Z) (w : Chain) : Chain :=
  {| chain_asset := chain_asset w;
     chain_balance := chain_balance w;
     chain_allowance := chain_allowance w;
     chain_maxDeposit := m;
     chain_gas := chain_gas w;
     chain_mines := chain_mines w;
     chain_pool := chain_pool w |}.

Definition quote (a : Z) : @DepositParams unit :=
  {| wallet := alice; vault := simpleVault; amount := a; walletClient := None |}.

Definition execute (a : Z) : @DepositParams unit :=
  {| wallet := alice; vault := simpleVault; amount := a; walletClient := Some tt |}.

End Sample.

(** ** Passing validation

    What it means for a request to pass every check of [deposit] against a
    given world: the two local checks, and the three reads, answered in the
    order the source awaits them, each at least [amount]. *)

Section Validation.

Context {WalletClient World : Type}.
Variable handle : forall X : Type, @call WalletClient X -> World -> completion X * World.

Definition locally_valid (req : @DepositParams WalletClient) : Prop :=
  0 < amount req /\ wallet req <> ZERO_ADDRESS /\ vault req <> ZERO_ADDRESS.

(** The reads of a request whose checks all pass. *)
Definition validation_reads (req : @DepositParams WalletClient)
    (asset : Address) (balance allowance maxDeposit : Z) : @trace WalletClient :=
  [ Entry (read_asset (vault req)) (Normal asset);
    Entry (read_balanceOf asset (wallet req)) (Normal balance);
    Entry (read_allowance asset (wallet req) (vault req)) (Normal allowance);
    Entry (read_maxDeposit (vault req) (wallet req)) (Normal maxDeposit) ].

Definition checks_pass (req : @DepositParams WalletClient) (w : World)
    (asset : Address) (balance allowance maxDeposit : Z) (w4 : World) : Prop :=
  locally_valid req /\
  exists w1 w2 w3,
    handle _ (read_asset (vault req)) w = (Normal asset, w1) /\
    handle _ (read_balanceOf asset (wallet req)) w1 = (Normal balance, w2) /\
    amount req <= balance /\
    handle _ (read_allowance asset (wallet req) (vault req)) w2 = (Normal allowance, w3) /\
    amount req <= allowance /\
    handle _ (read_maxDeposit (vault req) (wallet req)) w3 = (Normal maxDeposit, w4) /\
    amount req <= maxDeposit.

End Validation.

(** ** Receipts that echo the transaction

    The receipt a node reports for the hash of a transaction it has just
    accepted names that transaction's sender and recipient. *)

Section Echo.

Context {WalletClient World : Type}.
Variable handle : forall X : Type, @call WalletClient X -> World -> completion X * World.

Definition receipts_echo : Prop :=
  forall (wc : WalletClient) (tx : Transaction) (account : Address)
         (h : Hex) (rc : Receipt) (w w1 w2 : World),
    handle _ (sendTransaction wc tx account) w = (Normal h, w1) ->
    handle _ (waitForTransactionReceipt h) w1 = (Normal rc, w2) ->
    receipt_from rc = from tx /\ receipt_to rc = to tx.

End Echo.

Definition is_descriptor (r : Transaction + DepositResult) : bool :=
  match r with inl _ => true | inr _ => false end.

Definition is_execution_result (r : Transaction + DepositResult) : bool :=
  match r with inl _ => false | inr _ => true end.

(** ** Further observations on runs of [deposit] *)

(** [super("...")] of each error class; a library error carries its own. *)
Definition message (e : Error) : string :=
  match e with
  | NotEnoughBalanceError => "Not enough balance"
  | MissingAllowanceError => "Not enough allowance"
  | AmountExceedsMaxDepositError => "Amount exceeds max deposit"
  | InvalidAmountError => "Invalid amount"
  | InvalidReceiverError => "Invalid receiver address"
  | LibraryError reason => reason
  end.

(** The seven [await]s of [deposit], in the order of the source text. *)
Inductive step : Type :=
| AssetRead
| BalanceRead
| AllowanceRead
| MaxDepositRead
| GasEstimation
| Submission
| Confirmation.

Definition source_order : list step :=
  [AssetRead; BalanceRead; AllowanceRead; MaxDepositRead;
   GasEstimation; Submission; Confirmation].

Section Steps.

Context {WalletClient : Type}.

Definition call_step {X : Type} (c : @call WalletClient X) : step :=
  match c with
  | read_asset _ => AssetRead
  | read_balanceOf _ _ => BalanceRead
  | read_allowance _ _ _ => AllowanceRead
  | read_maxDeposit _ _ => MaxDepositRead
  | estimateGas _ _ _ => GasEstimation
  | sendTransaction _ _ _ => Submission
  | waitForTransactionReceipt _ => Confirmation
  end.

Definition entry_step (e : @entry WalletClient) : step :=
  match e with Entry c _ => call_step c end.

(** Reads and the gas simulation: the calls that go to the public client
    before anything is submitted. *)
Definition entry_is_query (e : @entry WalletClient) : bool :=
  match entry_step e with
  | Submission | Confirmation => false
  | _ => true
  end.

(** Everything handed to [walletClient.sendTransaction]: the client, the
    descriptor and the [account]. *)
Definition entry_submission (e : @entry WalletClient)
    : option (WalletClient * Transaction * Address) :=
  match e with
  | Entry (sendTransaction wc tx account) _ => Some (wc, tx, account)
  | Entry _ _ => None
  end.

Definition submissions (tr : @trace WalletClient)
    : list (WalletClient * Transaction * Address) :=
  collect entry_submission tr.

(** The same request without its wallet client. *)
Definition without_walletClient (req : @DepositParams WalletClient)
    : @DepositParams WalletClient :=
  {| wallet := wallet req;
     vault := vault req;
     amount := amount req;
     walletClient := None |}.

End Steps.

(** ** [SimpleVault.sol] as seen by [deposit] *)

Module SimpleVault.

(** [type(uint256).max]. *)
Definition MAX_UINT256 : Z := 2 ^ 256 - 1.

(** [function maxDeposit(address) returns (uint256)]: unlimited. *)
Definition maxDeposit (receiver : Address) : Z := MAX_UINT256.

Section Answers.

Context {WalletClient World : Type}.
Variable handle : forall X : Type, @call WalletClient X -> World -> completion X * World.

(** The vault behind the client is a [SimpleVault]. *)
Definition vault_is_SimpleVault : Prop :=
  forall (vault receiver : Address) (w w1 : World) (m : Z),
    handle _ (read_maxDeposit vault receiver) w = (Normal m, w1) ->
    m = maxDeposit receiver.

(** [balanceOf] returns a [uint256]. *)
Definition balances_are_uint256 : Prop :=
  forall (asset holder : Address) (w w1 : World) (b : Z),
    handle _ (read_balanceOf asset holder) w = (Normal b, w1) ->
    0 <= b <= MAX_UINT256.

End Answers.

(** The simulated node with a [SimpleVault] deployed on it. *)
Definition node (X : Type) (c : @call unit X) (w : Sample.Chain)
    : completion X * Sample.Chain :=
  match c in call X return completion X * Sample.Chain with
  | read_balanceOf _ _ => (Normal (Sample.chain_balance w mod 2 ^ 256), w)
  | read_maxDeposit _ receiver => (Normal (maxDeposit receiver), w)
  | c' => Sample.node _ c' w
  end.

End SimpleVault.

(** Two nodes on which the write path fails. *)
Module Faulty.

(** The wallet refuses to sign. *)
Definition refusing_wallet (X : Type) (c : @call unit X) (w : Sample.Chain)
    : completion X * Sample.Chain :=
  match c in call X return completion X * Sample.Chain with
  | sendTransaction _ _ _ => (Abrupt "UserRejectedRequestError"%string, w)
  | c' => Sample.node _ c' w
  end.

(** The node accepts the transaction and never reports a receipt. *)
Definition silent_node (X : Type) (c : @call unit X) (w : Sample.Chain)
    : completion X * Sample.Chain :=
  match c in call X return completion X * Sample.Chain with
  | waitForTransactionReceipt _ =>
      (Abrupt "WaitForTransactionReceiptTimeoutError"%string, w)
  | c' => Sample.node _ c' w
  end.

End Faulty.

(** ** Asynchronous code that catches

    [anvil-utils.ts] and the claim application wrap awaited calls in
    [try]/[catch], so here the continuation of an awaited call receives the
    settled promise, fulfilled or rejected, and decides itself. *)

Module Task.

Section Task.

(** The calls that can be awaited, and what a function may throw. *)
Context {E : Type -> Type} {F : Type}.

Inductive task (R : Type) : Type :=
| Done (r : R)
| Fail (e : F)
| Ask {X : Type} (c : E X) (k : completion X -> task R).
Arguments Done {R} r.
Arguments Fail {R} e.
Arguments Ask {R X} c k.

Fixpoint task_bind {A B : Type} (m : task A) (f : A -> task B) : task B :=
  match m with
  | Done a => f a
  | Fail e => Fail e
  | Ask c k => Ask c (fun r => task_bind (k r) f)
  end.

#[export] Instance Monad_task : Monad task :=
  {| ret := @Done; bind := @task_bind |}.

(** [await c] outside any [try]: a rejection is thrown as [rejected reason]. *)
Definition await (rejected : string -> F) {X : Type} (c : E X) : task X :=
  Ask c (fun r =>
           match r with
           | Normal x => Done x
           | Abrupt reason => Fail (rejected reason)
           end).

Inductive result (R : Type) : Type :=
| Fulfilled (r : R)
| Rejected (e : F).
Arguments Fulfilled {R} r.
Arguments Rejected {R} e.

Inductive exchange : Type :=
| Exchange {X : Type} (c : E X) (r : completion X).

Context {World : Type}.
Variable handle : forall X : Type, E X -> World -> completion X * World.

Fixpoint exec {R : Type} (p : task R) (w : World)
    : result R * list exchange * World :=
  match p with
  | Done r => (Fulfilled r, [], w)
  | Fail e => (Rejected e, [], w)
  | Ask c k =>
      let '(r, w1) := handle _ c w in
      let '(o, tr, w2) := exec (k r) w1 in
      (o, Exchange c r :: tr, w2)
  end.

End Task.

Arguments Done {E F R} r.
Arguments Fail {E F R} e.
Arguments Ask {E F R X} c k.
Arguments Fulfilled {F R} r.
Arguments Rejected {F R} e.
Arguments Exchange {E X} c r.

End Task.

(** ** [anvil-utils.ts]: [AnvilAccountManager] *)

Module AnvilUtils.

Import Task.

(** The client calls awaited by the methods modelled below. *)
Inductive rpc : Type -> Type :=
| eth_accounts : rpc (list Address)
| getBalance (address : Address) : rpc Z
| getBlockNumber : rpc Z.

(** The [Error]s of the module, by the template of their message. *)
Inductive failure : Type :=
| ClientError (reason : string)
    (* thrown by the client itself *)
| FailedToGetAccounts (error : string)
    (* `Failed to get accounts from Anvil: ${error}` *)
| IndexOutOfRange (index : Z) (count : nat).
    (* `Account index ${index} out of range. Available accounts: 0-${count - 1}` *)

Section Manager.

(** [balanceInEth] is the double [Number(balance) / 1e18]; the conversion is
    JavaScript's and is kept abstract. *)
Context {Double : Type}.
Variable toEth : Z -> Double.

(** [interface AnvilAccount]; [index] is an integer-valued [number]. *)
Record AnvilAccount : Type := {
  address : Address;
  index : Z;
  balance : Z;
  balanceInEth : Double
}.

(** [try { return await request({method: "eth_accounts"}) }
     catch (error) { throw new Error(...) }]. *)
Definition getAllAccounts : @task rpc failure (list Address) :=
  Ask eth_accounts
    (fun r =>
       match r with
       | Normal accounts => Done accounts
       | Abrupt error => Fail (FailedToGetAccounts error)
       end).

(** [getAccount] at an integer [index]; a fractional or [NaN] index, for
    which both range tests are false and [accounts[index]] is [undefined],
    lies outside this model. *)
Definition getAccount (index : Z) : @task rpc failure AnvilAccount :=
  accounts <- getAllAccounts ;;
  if (index <? 0) || (Z.of_nat (length accounts) <=? index)
  then Fail (IndexOutOfRange index (length accounts))
  else
    let address := nth (Z.to_nat index) accounts ""%string in
    balance <- await ClientError (getBalance address) ;;
    ret {| address := address;
           index := index;
           balance := balance;
           balanceInEth := toEth balance |}.

Definition getDefaultAccount : @task rpc failure AnvilAccount :=
  getAccount 0.

(** [try { await getBlockNumber(); return true } catch { return false }]. *)
Definition isAnvilRunning : @task rpc failure bool :=
  Ask getBlockNumber
    (fun r =>
       match r with
       | Normal _ => Done true
       | Abrupt _ => Done false
       end).

End Manager.

(** The calls of a trace. *)
Definition asked_balance (e : @exchange rpc) : bool :=
  match e with
  | Exchange (getBalance _) _ => true
  | Exchange _ _ => false
  end.

(** A node with the given accounts, each holding [funds]. *)
Definition anvil (accounts : list Address) (funds : Z)
    (X : Type) (c : rpc X) (w : unit) : completion X * unit :=
  match c in rpc X return completion X * unit with
  | eth_accounts => (Normal accounts, w)
  | getBalance _ => (Normal funds, w)
  | getBlockNumber => (Normal 0, w)
  end.

(** No node behind the URL. *)
Definition unreachable (X : Type) (c : rpc X) (w : unit) : completion X * unit :=
  (Abrupt "HttpRequestError"%string, w).

End AnvilUtils.

(** ** The claim application ([erc1155-claim])

    The logic of the React components, without the markup. *)

Module ClaimApp.

Import Task.

(** *** [NFTCard]: favourites kept in [localStorage] *)

(** [localStorage], each stored JSON text held as the array of ids it parses
    to; the card writes nothing else under its keys. *)
Definition Storage : Type := string -> option (list string).

Definition setItem (key : string) (ids : list string) (storage : Storage) : Storage :=
  fun k => if (k =? key)%string then Some ids else storage k.

(** [`nft-favorites-${address}`]. *)
Definition favoritesKey (address : string) : string :=
  ("nft-favorites-" ++ address)%string.

(** [JSON.parse(localStorage.getItem(key) || '[]')]. *)
Definition readFavorites (address : string) (storage : Storage) : list string :=
  match storage (favoritesKey address) with
  | Some ids => ids
  | None => []
  end.

(** [favorites.includes(id)]. *)
Definition includes (id : string) (ids : list string) : bool :=
  existsb (String.eqb id) ids.

(** [isConnected && address], with [address] possibly [undefined]: the
    connected, non-empty address, if any. *)
Definition connectedAddress (isConnected : bool) (address : option string)
    : option string :=
  match isConnected, address with
  | true, Some a => if (a =? "")%string then None else Some a
  | _, _ => None
  end.

(** The effect that sets [isFavorited] when the card, the connection or the
    address changes. *)
Definition syncFavorited (isConnected : bool) (address : option string)
    (id : string) (storage : Storage) : bool :=
  match connectedAddress isConnected address with
  | Some a => includes id (readFavorites a storage)
  | None => false
  end.

(** [handleFavorite]: the new [isFavorited] and the new storage. *)
Definition handleFavorite (isConnected : bool) (address : option string)
    (id : string) (isFavorited : bool) (storage : Storage) : bool * Storage :=
  match connectedAddress isConnected address with
  | None => (isFavorited, storage)
  | Some a =>
      let favorites := readFavorites a storage in
      let newFavorites :=
        if isFavorited
        then filter (fun x => negb (x =? id)%string) favorites
        else favorites ++ [id] in
      (negb isFavorited, setItem (favoritesKey a) newFavorites storage)
  end.

(** *** [NFTCard]: the claim button *)

(** [disabled={!isConnected || isProcessing || chainId !== baseSepolia.id}];
    [chainId] may be [undefined]. *)
Definition claimDisabled (baseSepolia_id : Z) (isConnected isProcessing : bool)
    (chainId : option Z) : bool :=
  negb isConnected || isProcessing
  || negb (match chainId with Some c => c =? baseSepolia_id | None => false end).

Definition claimLabel (baseSepolia_id : Z) (isConnected isProcessing : bool)
    (chainId : option Z) : string :=
  if negb isConnected then "Connect Wallet to Mint"
  else if negb (match chainId with Some c => c =? baseSepolia_id | None => false end)
       then "Switch to Base Sepolia"
  else if isProcessing then "Processing..."
  else "Claim Now".

(** *** [AppContent] and [MoreFromCollection] *)

Section Collection.

(** [NFTData], of which the components compare the [id]. *)
Context {NFTData : Type}.
Variable id : NFTData -> string.

(** [nfts.find(nft => nft.id === '1') || nfts[0]]. *)
Definition defaultNFT (nfts : list NFTData) : option NFTData :=
  match find (fun nft => (id nft =? "1")%string) nfts with
  | Some nft => Some nft
  | None => hd_error nfts
  end.

(** The effect on [nfts] and [selectedNFT]: the next [selectedNFT]. *)
Definition selectDefault (nfts : option (list NFTData))
    (selectedNFT : option NFTData) : option NFTData :=
  match nfts, selectedNFT with
  | Some l, None => if (0 <? length l)%nat then defaultNFT l else selectedNFT
  | _, _ => selectedNFT
  end.

(** [nfts.filter(nft => nft.id !== excludeId)], [excludeId] optional. *)
Definition otherNFTs (nfts : list NFTData) (excludeId : option string)
    : list NFTData :=
  filter (fun nft =>
            match excludeId with
            | Some x => negb (id nft =? x)%string
            | None => true
            end) nfts.

(** *** [fetchNFTs] *)

Record Response : Type := {
  ok : bool;
  status : Z
}.

(** What [fetchNFTs] can throw: a rejected [fetch], its own HTTP error, a
    rejected [response.json()]. *)
Inductive fetchError : Type :=
| FetchRejected (reason : string)
| HttpError (status : Z)
| JsonRejected (reason : string).

Inductive web : Type -> Type :=
| fetch (url : string) : web Response
| json (response : Response) : web (list NFTData)
| console_error (label : string) (error : fetchError) : web unit.

Definition API_BASE_URL : string :=
  "https://mint-api-production-7d50.up.railway.app".

(** The [catch] block: log, then rethrow the same error. *)
Definition logAndRethrow {R : Type} (error : fetchError) : @task web fetchError R :=
  Ask (console_error "Error fetching NFTs:" error) (fun _ => Fail error).

Definition fetchNFTs : @task web fetchError (list NFTData) :=
  Ask (fetch (API_BASE_URL ++ "/nfts"))
    (fun r =>
       match r with
       | Abrupt reason => logAndRethrow (FetchRejected reason)
       | Normal response =>
           if negb (ok response)
           then logAndRethrow (HttpError (status response))
           else
             Ask (json response)
               (fun d =>
                  match d with
                  | Normal data => Done data
                  | Abrupt reason => logAndRethrow (JsonRejected reason)
                  end)
       end).

(** The errors logged in a trace. *)
Definition logged (e : @exchange web) : option fetchError :=
  match e with
  | Exchange (console_error _ error) _ => Some error
  | Exchange _ _ => None
  end.

Definition parsed (e : @exchange web) : bool :=
  match e with
  | Exchange (json _) _ => true
  | Exchange _ _ => false
  end.

End Collection.

(** A server answering every request with the given status and body. *)
Definition server (code : Z) (body : list string)
    (X : Type) (c : @web string X) (w : unit) : completion X * unit :=
  match c in web X return completion X * unit with
  | fetch _ => (Normal {| ok := (200 <=? code) && (code <=? 299); status := code |}, w)
  | json _ => (Normal body, w)
  | console_error _ _ => (Normal tt, w)
  end.

(** A browser with nothing stored, and NFTs that are just their ids. *)
Definition emptyStorage : Storage := fun _ => None.

Definition ids : string -> string := fun nft => nft.

End ClaimApp.

(** * Properties of [deposit] *)

Section Properties.

Context {WalletClient World : Type}.
Variable encodeFunctionData : Z -> Address -> completion Hex.
Variable handle : forall X : Type, @call WalletClient X -> World -> completion X * World.

Local Abbreviation plan req w := (run handle (deposit encodeFunctionData req) w).

(** Awaiting a call and continuing: the runner asks the handler once. *)
Lemma run_await {X R : Type} (c : call X) (f : X -> async R) (w : World) :
  run handle (bind (await c) f) w =
  match handle _ c w with
  | (Normal x, w1) =>
      let '(o, tr, w2) := run handle (f x) w1 in (o, Entry c (Normal x) :: tr, w2)
  | (Abrupt reason, w1) =>
      (Threw (LibraryError reason), [Entry c (Abrupt reason)], w1)
  end.
Proof. reflexivity. Qed.

Lemma run_eval {X R : Type} (r : completion X) (f : X -> async R) (w : World) :
  run handle (bind (eval r) f) w =
  match r with
  | Normal x => run handle (f x) w
  | Abrupt reason => (Threw (LibraryError reason), [], w)
  end.
Proof. destruct r; reflexivity. Qed.

(** Case analysis on everything a run of [deposit] branches on. *)
Ltac branch :=
  match goal with
  | |- context [handle ?X ?c ?w] =>
      let r := fresh "r" in let w' := fresh "w" in
      destruct (handle X c w) as [[r | r] w']
  | |- context [encodeFunctionData ?a ?b] => destruct (encodeFunctionData a b)
  | |- context [walletClient ?r] => destruct (walletClient r)
  | |- context [if ?b then _ else _] => destruct b
  end.

Ltac paths := unfold deposit; cbn; repeat (branch; cbn).

Ltac branch_in H :=
  match type of H with
  | context [handle ?X ?c ?w] =>
      let r := fresh "r" in let w' := fresh "w" in let E := fresh "E" in
      destruct (handle X c w) as [[r | r] w'] eqn:E
  | context [encodeFunctionData ?a ?b] =>
      let E := fresh "E" in destruct (encodeFunctionData a b) eqn:E
  | context [walletClient ?r] =>
      let E := fresh "E" in destruct (walletClient r) eqn:E
  | context [if ?b then _ else _] =>
      let E := fresh "E" in destruct b eqn:E
  end.

Ltac paths_in H := unfold deposit in H; cbn in H; repeat (branch_in H; cbn in H).

(** The tests of [deposit] as propositions. *)
Ltac guards :=
  repeat match goal with
  | H : (_ <=? _) = false |- _ => apply Z.leb_gt in H
  | H : (_ <=? _) = true |- _ => apply Z.leb_le in H
  | H : (_ <? _) = false |- _ => apply Z.ltb_ge in H
  | H : (_ <? _) = true |- _ => apply Z.ltb_lt in H
  | H : (_ =? _)%string = false |- _ => apply String.eqb_neq in H
  | H : (_ =? _)%string = true |- _ => apply String.eqb_eq in H
  end.

(** C2. A request whose amount is zero or negative fails with
    [InvalidAmountError], and nothing was asked of the ledger or of the
    wallet: the trace is empty and the world is untouched. *)
Theorem invalid_amount_before_any_call (req : DepositParams) (w : World) :
  amount req <= 0 ->
  plan req w = (Threw InvalidAmountError, [], w).
Proof.
  intros Hle. unfold deposit.
  apply Z.leb_le in Hle. rewrite Hle. reflexivity.
Qed.

(** C3. With a strictly positive amount, a depositor or a vault equal to the
    zero address fails with [InvalidReceiverError], the same error for
    either address (and for both). *)
Theorem zero_address_is_invalid_receiver (req : DepositParams) (w : World) :
  0 < amount req ->
  wallet req = ZERO_ADDRESS \/ vault req = ZERO_ADDRESS ->
  plan req w = (Threw InvalidReceiverError, [], w).
Proof.
  intros Hpos Hzero. unfold deposit.
  apply Z.leb_gt in Hpos. rewrite Hpos.
  destruct (String.eqb_spec (wallet req) ZERO_ADDRESS) as [_ | Hw].
  - reflexivity.
  - destruct Hzero as [Hz | Hz]; [contradiction |].
    apply String.eqb_eq in Hz. rewrite Hz. reflexivity.
Qed.

(** C9. In any run of [deposit], whatever the handler answers,
    [sendTransaction] is awaited at most once. *)
Theorem send_at_most_once (req : DepositParams) (w : World) :
  (length (sent_transactions (snd (fst (plan req w)))) <= 1)%nat.
Proof. paths; lia. Qed.

(** C8. A run that ends in one of the five domain errors has awaited
    contract reads only; in particular no transaction was sent. *)
Theorem domain_error_sends_nothing (req : DepositParams) (w w' : World)
    (e : Error) (tr : trace) :
  plan req w = (Threw e, tr, w') ->
  is_domain_error e = true ->
  sent_transactions tr = [] /\ forallb entry_is_read tr = true.
Proof.
  intros Hrun Hdom.
  paths_in Hrun; inversion Hrun; subst; try discriminate Hdom; split; reflexivity.
Qed.

(** The three guards a locally valid request gets through. *)
Lemma local_guards (req : @DepositParams WalletClient) :
  locally_valid req ->
  (amount req <=? 0) = false /\
  (wallet req =? ZERO_ADDRESS)%string = false /\
  (vault req =? ZERO_ADDRESS)%string = false.
Proof.
  intros (Hpos & Hw & Hv). repeat split.
  - now apply Z.leb_gt.
  - now apply String.eqb_neq.
  - now apply String.eqb_neq.
Qed.

(** C1. For a request that passes the local checks, once the asset is
    resolved and the balance read: a balance below the amount fails with
    [NotEnoughBalanceError] and neither allowance nor capacity is read; with
    enough balance, an allowance below the amount fails with
    [MissingAllowanceError] and the capacity is not read; with enough balance
    and allowance, a [maxDeposit] below the amount fails with
    [AmountExceedsMaxDepositError]. *)
Theorem remote_checks_in_order (req : DepositParams) (w w1 w2 : World)
    (asset : Address) (balance : Z) :
  locally_valid req ->
  handle _ (read_asset (vault req)) w = (Normal asset, w1) ->
  handle _ (read_balanceOf asset (wallet req)) w1 = (Normal balance, w2) ->
  (balance < amount req ->
   plan req w =
   (Threw NotEnoughBalanceError,
    [ Entry (read_asset (vault req)) (Normal asset);
      Entry (read_balanceOf asset (wallet req)) (Normal balance) ], w2))
  /\
  (amount req <= balance ->
   forall (allowance : Z) (w3 : World),
   handle _ (read_allowance asset (wallet req) (vault req)) w2 = (Normal allowance, w3) ->
   (allowance < amount req ->
    plan req w =
    (Threw MissingAllowanceError,
     [ Entry (read_asset (vault req)) (Normal asset);
       Entry (read_balanceOf asset (wallet req)) (Normal balance);
       Entry (read_allowance asset (wallet req) (vault req)) (Normal allowance) ], w3))
   /\
   (amount req <= allowance ->
    forall (maxDeposit : Z) (w4 : World),
    handle _ (read_maxDeposit (vault req) (wallet req)) w3 = (Normal maxDeposit, w4) ->
    maxDeposit < amount req ->
    plan req w =
    (Threw AmountExceedsMaxDepositError,
     validation_reads req asset balance allowance maxDeposit, w4))).
Proof.
  intros Hloc Hasset Hbal.
  destruct (local_guards req Hloc) as (Ga & Gw & Gv).
  split.
  - intros Hlt. apply Z.ltb_lt in Hlt.
    unfold deposit. rewrite Ga, Gw, Gv.
    rewrite run_await, Hasset, run_await, Hbal, Hlt. reflexivity.
  - intros Hge allowance w3 Hallow. apply Z.ltb_ge in Hge.
    split.
    + intros Hlt. apply Z.ltb_lt in Hlt.
      unfold deposit. rewrite Ga, Gw, Gv.
      rewrite run_await, Hasset, run_await, Hbal, Hge.
      rewrite run_await, Hallow, Hlt. reflexivity.
    + intros Hge' maxDeposit w4 Hmax Hlt.
      apply Z.ltb_ge in Hge'. apply Z.ltb_lt in Hlt.
      unfold deposit. rewrite Ga, Gw, Gv.
      rewrite run_await, Hasset, run_await, Hbal, Hge.
      rewrite run_await, Hallow, Hge'.
      rewrite run_await, Hmax, Hlt. reflexivity.
Qed.

(** The object literal [depositTx] for call data [d] and gas estimate [g]. *)
Local Abbreviation built req d g :=
  {| to := vault req;
     from := wallet req;
     data := d;
     value := 0;
     gas := g + (g * 10) ÷ 100 |}.

(** A run whose checks pass, whose call data encodes and whose gas
    estimation answers: all that is left is the [walletClient] branch. *)
Lemma plan_after_validation (req : DepositParams) (w w4 w5 : World)
    (asset : Address) (balance allowance maxDeposit g : Z) (d : Hex) :
  checks_pass handle req w asset balance allowance maxDeposit w4 ->
  encodeFunctionData (amount req) (wallet req) = Normal d ->
  handle _ (estimateGas (wallet req) (vault req) d) w4 = (Normal g, w5) ->
  plan req w =
  let reads :=
    validation_reads req asset balance allowance maxDeposit
      ++ [Entry (estimateGas (wallet req) (vault req) d) (Normal g)] in
  match walletClient req with
  | None => (Returned (inl (built req d g)), reads, w5)
  | Some wc =>
      let send := sendTransaction wc (built req d g) (wallet req) in
      match handle _ send w5 with
      | (Normal h, w6) =>
          match handle _ (waitForTransactionReceipt h) w6 with
          | (Normal rc, w7) =>
              (Returned (inr {| hash := h; receipt := rc |}),
               reads ++ [Entry send (Normal h);
                         Entry (waitForTransactionReceipt h) (Normal rc)], w7)
          | (Abrupt reason, w7) =>
              (Threw (LibraryError reason),
               reads ++ [Entry send (Normal h);
                         Entry (waitForTransactionReceipt h) (Abrupt reason)], w7)
          end
      | (Abrupt reason, w6) =>
          (Threw (LibraryError reason), reads ++ [Entry send (Abrupt reason)], w6)
      end
  end.
Proof.
  intros (Hloc & w1 & w2 & w3 & Hasset & Hbal & Hb & Hallow & Ha & Hmax & Hm) Henc Hgas.
  destruct (local_guards req Hloc) as (Ga & Gw & Gv).
  apply Z.ltb_ge in Hb, Ha, Hm.
  unfold deposit. rewrite Ga, Gw, Gv.
  rewrite run_await, Hasset, run_await, Hbal, Hb.
  rewrite run_await, Hallow, Ha, run_await, Hmax, Hm.
  rewrite Henc, run_eval, run_await, Hgas, run_eval.
  destruct (walletClient req) as [wc |]; [| reflexivity].
  cbv zeta. rewrite run_await.
  destruct (handle Hex _ w5) as [[h | reason] w6]; [| reflexivity].
  rewrite run_await.
  destruct (handle Receipt _ w6) as [[rc | reason] w7]; reflexivity.
Qed.

(** C4. In every run that returns, the gas estimation answered exactly once,
    with some [g], and the gas limit of the descriptor that was built (the
    one returned, or the one submitted) is [g + g * 10 / 100] in [bigint]
    arithmetic; for a gas quantity [0 <= g] the [bigint] quotient is the
    floor. *)
Theorem gas_limit_is_estimate_plus_tenth (req : DepositParams) (w w' : World)
    (r : Transaction + DepositResult) (tr : trace) :
  plan req w = (Returned r, tr, w') ->
  exists (g : Z) (tx : Transaction),
    gas_estimates tr = [g] /\
    descriptors r tr = [tx] /\
    gas tx = g + (g * 10) ÷ 100 /\
    (0 <= g -> gas tx = g + g * 10 / 100).
Proof.
  intros Hrun.
  paths_in Hrun; inversion Hrun; subst; cbn;
    (eexists; eexists;
     split; [reflexivity | split; [reflexivity | split; [reflexivity |]]]);
    cbn; intros Hg; rewrite Z.quot_div_nonneg by lia; reflexivity.
Qed.

(** C5. A request that passes every check and carries no wallet client gets
    back, once its call data is encoded and the gas estimated, the unsent
    descriptor: [value] zero, [to] the vault, [from] the depositor and
    [data] the encoded [deposit(amount, depositor)] call. *)
Theorem quote_returns_descriptor (req : DepositParams) (w w4 w5 : World)
    (asset : Address) (balance allowance maxDeposit g : Z) (d : Hex) :
  checks_pass handle req w asset balance allowance maxDeposit w4 ->
  walletClient req = None ->
  encodeFunctionData (amount req) (wallet req) = Normal d ->
  handle _ (estimateGas (wallet req) (vault req) d) w4 = (Normal g, w5) ->
  exists tx : Transaction,
    plan req w =
    (Returned (inl tx),
     validation_reads req asset balance allowance maxDeposit
       ++ [Entry (estimateGas (wallet req) (vault req) d) (Normal g)], w5) /\
    value tx = 0 /\
    to tx = vault req /\
    from tx = wallet req /\
    encodeFunctionData (amount req) (wallet req) = Normal (data tx).
Proof.
  intros Hchecks Hnone Henc Hgas.
  exists (built req d g).
  rewrite (plan_after_validation req w w4 w5 asset balance allowance maxDeposit g d
             Hchecks Henc Hgas), Hnone.
  repeat split; assumption.
Qed.

(** C6, as the code has it. A run of [deposit] ends in one of three ways.
    It throws one of the five domain errors; or it throws the library's
    error, that of the call-data encoding or of the one rejected remote
    call, which is then the last call of the run; or it returns, and then
    every check passed and the gas estimation answered, and what is
    returned is the unsent descriptor exactly when no wallet client was
    supplied, nothing having been sent, and exactly when one was supplied
    the hash that [sendTransaction] answered for that descriptor with the
    receipt that [waitForTransactionReceipt] answered for that hash.
    Conversely a request that passes every check does return so, once the
    calls it awaits are answered. *)
Theorem result_shape_follows_submitter (req : DepositParams) (w : World) :
  (forall (o : outcome (Transaction + DepositResult)) (tr : trace) (w' : World),
     plan req w = (o, tr, w') ->
     match o with
     | Threw e =>
         is_domain_error e = true \/
         exists reason : string,
           e = LibraryError reason /\
           (encodeFunctionData (amount req) (wallet req) = Abrupt reason \/
            exists (tr0 : trace) (X : Type) (c : call X),
              tr = tr0 ++ [Entry c (Abrupt reason)])
     | Returned r =>
         (is_descriptor r = true <-> walletClient req = None) /\
         (is_execution_result r = true <-> walletClient req <> None) /\
         exists (asset : Address) (balance allowance maxDeposit g : Z) (d : Hex)
                (w4 w5 : World),
           checks_pass handle req w asset balance allowance maxDeposit w4 /\
           encodeFunctionData (amount req) (wallet req) = Normal d /\
           handle _ (estimateGas (wallet req) (vault req) d) w4 = (Normal g, w5) /\
           let queries :=
             validation_reads req asset balance allowance maxDeposit
               ++ [Entry (estimateGas (wallet req) (vault req) d) (Normal g)] in
           match walletClient req with
           | None =>
               r = inl (built req d g) /\ tr = queries /\ w' = w5
           | Some wc =>
               let send := sendTransaction wc (built req d g) (wallet req) in
               exists (h : Hex) (rc : Receipt) (w6 : World),
                 handle _ send w5 = (Normal h, w6) /\
                 handle _ (waitForTransactionReceipt h) w6 = (Normal rc, w') /\
                 r = inr {| hash := h; receipt := rc |} /\
                 tr = queries
                        ++ [Entry send (Normal h);
                            Entry (waitForTransactionReceipt h) (Normal rc)]
           end
     end)
  /\
  (forall (asset : Address) (balance allowance maxDeposit g : Z) (d : Hex)
          (w4 w5 : World),
     checks_pass handle req w asset balance allowance maxDeposit w4 ->
     encodeFunctionData (amount req) (wallet req) = Normal d ->
     handle _ (estimateGas (wallet req) (vault req) d) w4 = (Normal g, w5) ->
     let queries :=
       validation_reads req asset balance allowance maxDeposit
         ++ [Entry (estimateGas (wallet req) (vault req) d) (Normal g)] in
     (walletClient req = None ->
      plan req w = (Returned (inl (built req d g)), queries, w5))
     /\
     (forall (wc : WalletClient) (h : Hex) (rc : Receipt) (w6 w7 : World),
        walletClient req = Some wc ->
        handle _ (sendTransaction wc (built req d g) (wallet req)) w5 = (Normal h, w6) ->
        handle _ (waitForTransactionReceipt h) w6 = (Normal rc, w7) ->
        plan req w =
        (Returned (inr {| hash := h; receipt := rc |}),
         queries
           ++ [Entry (sendTransaction wc (built req d g) (wallet req)) (Normal h);
               Entry (waitForTransactionReceipt h) (Normal rc)],
         w7))).
Proof.
  split.
  - intros o tr w' Hrun.
    paths_in Hrun; inversion Hrun; subst; guards; cbv beta iota;
      first
        [ (* a domain error *)
          solve [left; reflexivity]
        | (* the encoder threw *)
          solve [right; eexists; split; [reflexivity |]; left; reflexivity]
        | (* a remote call was rejected *)
          solve [right; eexists; split; [reflexivity |]; right;
                 (eexists [] + eexists [_] + eexists [_; _]
                  + eexists [_; _; _] + eexists [_; _; _; _]
                  + eexists [_; _; _; _; _] + eexists [_; _; _; _; _; _]);
                 do 2 eexists; reflexivity]
        | (* a return *)
          (split; [split; intros; solve [reflexivity | discriminate | congruence] |]);
          (split; [split; intros; solve [reflexivity | discriminate | congruence] |]);
          do 8 eexists;
          (split; [split; [repeat split; assumption |];
                   do 3 eexists; repeat split; eassumption |]);
          (split; [reflexivity |]);
          (split; [eassumption |]);
          cbv zeta;
          first [ solve [repeat split]
                | do 3 eexists;
                  split; [eassumption |]; split; [eassumption |];
                  split; reflexivity ] ].
  - intros asset balance allowance maxDeposit g d w4 w5 Hchecks Henc Hgas.
    cbv zeta.
    rewrite (plan_after_validation req w w4 w5 asset balance allowance maxDeposit g d
               Hchecks Henc Hgas).
    split.
    + intros Hnone. rewrite Hnone. reflexivity.
    + intros wc h rc w6 w7 Hsome Hsend Hwait.
      rewrite Hsome. cbv zeta. rewrite Hsend, Hwait. reflexivity.
Qed.

(** C7, as the code has it. A request that passes every check and carries a
    wallet client gets back, once the send and the wait are answered, the
    hash that [sendTransaction] answered together with the receipt that
    [waitForTransactionReceipt] answered for that hash, unchanged; what was
    sent is the descriptor from the depositor to the vault, so on a network
    whose receipts echo the transaction the receipt's [from] is the
    depositor and its [to] is the vault.  The receipt's [status] is the
    network's, [success] or [reverted]: it is not inspected. *)
Theorem execution_returns_hash_and_receipt (req : DepositParams)
    (w w4 w5 w6 w7 : World) (asset : Address)
    (balance allowance maxDeposit g : Z) (d h : Hex)
    (wc : WalletClient) (rc : Receipt) :
  checks_pass handle req w asset balance allowance maxDeposit w4 ->
  walletClient req = Some wc ->
  encodeFunctionData (amount req) (wallet req) = Normal d ->
  handle _ (estimateGas (wallet req) (vault req) d) w4 = (Normal g, w5) ->
  handle _ (sendTransaction wc (built req d g) (wallet req)) w5 = (Normal h, w6) ->
  handle _ (waitForTransactionReceipt h) w6 = (Normal rc, w7) ->
  exists (tr : trace) (res : DepositResult),
    plan req w = (Returned (inr res), tr, w7) /\
    hash res = h /\
    receipt res = rc /\
    sent_transactions tr = [built req d g] /\
    from (built req d g) = wallet req /\
    to (built req d g) = vault req /\
    (receipts_echo handle ->
     receipt_from (receipt res) = wallet req /\
     receipt_to (receipt res) = vault req).
Proof.
  intros Hchecks Hsome Henc Hgas Hsend Hwait.
  rewrite (plan_after_validation req w w4 w5 asset balance allowance maxDeposit g d
             Hchecks Henc Hgas), Hsome.
  cbv zeta. rewrite Hsend, Hwait.
  eexists. exists {| hash := h; receipt := rc |}.
  split; [reflexivity |]. do 5 (split; [reflexivity |]).
  intros Hecho. exact (Hecho _ _ _ _ _ _ _ _ Hsend Hwait).
Qed.


(** ** What else the source shows *)

(** X1. [deposit] throws [InvalidAmountError] exactly when the amount is
    zero or negative, whatever the addresses and the ledger are. *)
Theorem invalid_amount_iff (req : DepositParams) (w : World) :
  fst (fst (plan req w)) = Threw InvalidAmountError <-> amount req <= 0.
Proof.
  split.
  - intros Hthrow.
    destruct (Z.leb_spec (amount req) 0) as [Hle | Hgt]; [exact Hle |].
    exfalso. apply Z.leb_gt in Hgt. revert Hthrow.
    unfold deposit. rewrite Hgt. cbn. repeat (branch; cbn); discriminate.
  - intros Hle. apply Z.leb_le in Hle.
    unfold deposit. rewrite Hle. reflexivity.
Qed.

(** X2. [deposit] throws [InvalidReceiverError] exactly when the amount is
    positive and the wallet or the vault is the zero address: the amount
    check comes first, and no answer of the ledger produces this error. *)
Theorem invalid_receiver_iff (req : DepositParams) (w : World) :
  fst (fst (plan req w)) = Threw InvalidReceiverError <->
  0 < amount req /\ (wallet req = ZERO_ADDRESS \/ vault req = ZERO_ADDRESS).
Proof.
  split.
  - intros Hthrow. revert Hthrow. unfold deposit.
    destruct (Z.leb_spec (amount req) 0) as [Hle | Hgt]; [discriminate |].
    destruct (String.eqb_spec (wallet req) ZERO_ADDRESS) as [Hw | Hw]; [auto |].
    destruct (String.eqb_spec (vault req) ZERO_ADDRESS) as [Hv | Hv]; [auto |].
    cbn. repeat (branch; cbn); discriminate.
  - intros [Hpos Hzero]. apply Z.leb_gt in Hpos.
    unfold deposit. rewrite Hpos.
    destruct (String.eqb_spec (wallet req) ZERO_ADDRESS) as [_ | Hw]; [reflexivity |].
    destruct Hzero as [Hz | Hz]; [contradiction |].
    apply String.eqb_eq in Hz. rewrite Hz. reflexivity.
Qed.

(** X3. [NotEnoughBalanceError] has one cause: the request was locally
    valid, the asset was resolved, and the balance read, the last call of
    the run, answered less than the amount. *)
Theorem not_enough_balance_cause (req : DepositParams) (w w' : World) (tr : trace) :
  plan req w = (Threw NotEnoughBalanceError, tr, w') ->
  locally_valid req /\
  exists (asset : Address) (balance : Z),
    tr = [ Entry (read_asset (vault req)) (Normal asset);
           Entry (read_balanceOf asset (wallet req)) (Normal balance) ] /\
    balance < amount req.
Proof.
  intros Hrun.
  paths_in Hrun; inversion Hrun; subst; guards;
    (split; [repeat split; assumption |]);
    (do 2 eexists; split; [reflexivity | assumption]).
Qed.

(** X4. [MissingAllowanceError] has one cause: the balance was sufficient
    and the allowance read, the last call of the run, answered less than
    the amount. *)
Theorem missing_allowance_cause (req : DepositParams) (w w' : World) (tr : trace) :
  plan req w = (Threw MissingAllowanceError, tr, w') ->
  locally_valid req /\
  exists (asset : Address) (balance allowance : Z),
    tr = [ Entry (read_asset (vault req)) (Normal asset);
           Entry (read_balanceOf asset (wallet req)) (Normal balance);
           Entry (read_allowance asset (wallet req) (vault req)) (Normal allowance) ] /\
    amount req <= balance /\
    allowance < amount req.
Proof.
  intros Hrun.
  paths_in Hrun; inversion Hrun; subst; guards;
    (split; [repeat split; assumption |]);
    (do 3 eexists; split; [reflexivity |]; split; assumption).
Qed.

(** X5. [AmountExceedsMaxDepositError] has one cause: balance and allowance
    were sufficient and [maxDeposit], the last call of the run, answered
    less than the amount. *)
Theorem exceeds_max_deposit_cause (req : DepositParams) (w w' : World) (tr : trace) :
  plan req w = (Threw AmountExceedsMaxDepositError, tr, w') ->
  locally_valid req /\
  exists (asset : Address) (balance allowance maxDeposit : Z),
    tr = validation_reads req asset balance allowance maxDeposit /\
    amount req <= balance /\
    amount req <= allowance /\
    maxDeposit < amount req.
Proof.
  intros Hrun.
  paths_in Hrun; inversion Hrun; subst; guards;
    (split; [repeat split; assumption |]);
    (do 4 eexists; split; [reflexivity |]; repeat split; assumption).
Qed.

(** X6. A returned value certifies the checks: whenever [deposit] returns,
    the request was locally valid and the run began with the four reads,
    each fulfilled, with balance, allowance and capacity at least the
    amount. *)
Theorem returned_implies_checks_passed (req : DepositParams) (w w' : World)
    (r : Transaction + DepositResult) (tr : trace) :
  plan req w = (Returned r, tr, w') ->
  exists (asset : Address) (balance allowance maxDeposit : Z) (w4 : World),
    checks_pass handle req w asset balance allowance maxDeposit w4 /\
    firstn 4 tr = validation_reads req asset balance allowance maxDeposit.
Proof.
  intros Hrun.
  paths_in Hrun; inversion Hrun; subst; guards;
    (do 5 eexists; split; [| reflexivity]);
    (split; [repeat split; assumption |]);
    (do 3 eexists; repeat split; eassumption).
Qed.

(** X7. In every run the calls are awaited in the order of the source text,
    none skipped and none repeated: the steps of the trace are an initial
    segment of asset, balance, allowance, capacity, gas estimation,
    submission, confirmation. *)
Theorem calls_follow_source_order (req : DepositParams) (w : World) :
  exists n : nat,
    map entry_step (snd (fst (plan req w))) = firstn n source_order.
Proof.
  paths;
    first [ exists 0%nat; reflexivity | exists 1%nat; reflexivity
          | exists 2%nat; reflexivity | exists 3%nat; reflexivity
          | exists 4%nat; reflexivity | exists 5%nat; reflexivity
          | exists 6%nat; reflexivity | exists 7%nat; reflexivity ].
Qed.

(** X8. Without a wallet client [deposit] only queries: in every run, be it
    a success or a failure, all calls are contract reads or the gas
    simulation, at most five of them, and nothing is submitted. *)
Theorem quote_mode_only_queries (req : DepositParams) (w : World) :
  walletClient req = None ->
  forallb entry_is_query (snd (fst (plan req w))) = true /\
  (length (snd (fst (plan req w))) <= 5)%nat /\
  submissions (snd (fst (plan req w))) = [].
Proof.
  intros Hnone. unfold deposit. rewrite Hnone. cbn.
  repeat (branch; cbn); repeat split; lia.
Qed.

(** X9. Whatever [deposit] submits goes through the wallet client of the
    request, with the depositor as [account] and as [from], the vault as
    [to], and no native currency: [value] is zero. *)
Theorem submission_is_the_deposit (req : DepositParams) (w : World) :
  Forall (fun s : WalletClient * Transaction * Address =>
            let '(wc, tx, account) := s in
            walletClient req = Some wc /\
            account = wallet req /\
            from tx = wallet req /\
            to tx = vault req /\
            value tx = 0)
         (submissions (snd (fst (plan req w)))).
Proof.
  unfold deposit. destruct (walletClient req) as [wc |]; cbn;
    repeat (branch; cbn); repeat constructor.
Qed.

(** The tenth that is added to a gas quantity. *)
Lemma tenth_bounds (g : Z) :
  0 <= g ->
  10 * ((g * 10) ÷ 100) <= g < 10 * ((g * 10) ÷ 100) + 10.
Proof.
  intros Hg.
  rewrite Z.quot_div_nonneg by lia.
  replace (g * 10 / 100) with (g / 10)
    by (rewrite <- (Z.div_mul_cancel_r g 10 10) by lia; reflexivity).
  pose proof (Z.mul_div_le g 10 ltac:(lia)).
  pose proof (Z.mul_succ_div_gt g 10 ltac:(lia)).
  lia.
Qed.

(** X10. The buffer never lowers the limit and never exceeds a tenth: in
    every run that returns, with gas estimate [0 <= g], the limit is at
    least [g], the added part is at most [g / 10] and misses it by less
    than one unit; an estimate below 10 gets no buffer at all. *)
Theorem gas_buffer_bounds (req : DepositParams) (w w' : World)
    (r : Transaction + DepositResult) (tr : trace) :
  plan req w = (Returned r, tr, w') ->
  exists (g : Z) (tx : Transaction),
    gas_estimates tr = [g] /\
    descriptors r tr = [tx] /\
    (0 <= g ->
     g <= gas tx /\
     10 * (gas tx - g) <= g < 10 * (gas tx - g) + 10 /\
     (g < 10 -> gas tx = g)).
Proof.
  intros Hrun.
  paths_in Hrun; inversion Hrun; subst;
    (eexists; eexists; split; [reflexivity | split; [reflexivity |]]);
    cbn [gas]; intros Hg;
    match goal with
    | |- context [(?g * 10) ÷ 100] =>
        pose proof (tenth_bounds g Hg) as Hq;
        generalize dependent ((g * 10) ÷ 100)
    end; intros; lia.
Qed.

(** X11. A rejected submission ends the run with the library's error: the
    confirmation is never awaited, and the rejected [sendTransaction] is
    the last call. *)
Theorem rejected_send_is_not_confirmed (req : DepositParams)
    (w w4 w5 w6 : World) (asset : Address)
    (balance allowance maxDeposit g : Z) (d : Hex)
    (wc : WalletClient) (reason : string) :
  checks_pass handle req w asset balance allowance maxDeposit w4 ->
  walletClient req = Some wc ->
  encodeFunctionData (amount req) (wallet req) = Normal d ->
  handle _ (estimateGas (wallet req) (vault req) d) w4 = (Normal g, w5) ->
  handle _ (sendTransaction wc (built req d g) (wallet req)) w5 = (Abrupt reason, w6) ->
  plan req w =
  (Threw (LibraryError reason),
   validation_reads req asset balance allowance maxDeposit
     ++ [ Entry (estimateGas (wallet req) (vault req) d) (Normal g);
          Entry (sendTransaction wc (built req d g) (wallet req)) (Abrupt reason) ],
   w6).
Proof.
  intros Hchecks Hsome Henc Hgas Hsend.
  rewrite (plan_after_validation req w w4 w5 asset balance allowance maxDeposit g d
             Hchecks Henc Hgas), Hsome.
  cbv zeta. rewrite Hsend. reflexivity.
Qed.

(** X12. A rejected wait makes [deposit] throw although the transaction
    went out: the descriptor was submitted, the hash was obtained, and the
    caller gets the library's error instead of the hash. *)
Theorem rejected_wait_after_submission (req : DepositParams)
    (w w4 w5 w6 w7 : World) (asset : Address)
    (balance allowance maxDeposit g : Z) (d h : Hex)
    (wc : WalletClient) (reason : string) :
  checks_pass handle req w asset balance allowance maxDeposit w4 ->
  walletClient req = Some wc ->
  encodeFunctionData (amount req) (wallet req) = Normal d ->
  handle _ (estimateGas (wallet req) (vault req) d) w4 = (Normal g, w5) ->
  handle _ (sendTransaction wc (built req d g) (wallet req)) w5 = (Normal h, w6) ->
  handle _ (waitForTransactionReceipt h) w6 = (Abrupt reason, w7) ->
  exists tr : trace,
    plan req w = (Threw (LibraryError reason), tr, w7) /\
    submissions tr = [(wc, built req d g, wallet req)] /\
    In (Entry (sendTransaction wc (built req d g) (wallet req)) (Normal h)) tr.
Proof.
  intros Hchecks Hsome Henc Hgas Hsend Hwait.
  rewrite (plan_after_validation req w w4 w5 asset balance allowance maxDeposit g d
             Hchecks Henc Hgas), Hsome.
  cbv zeta. rewrite Hsend, Hwait.
  eexists. split; [reflexivity |]. split; [reflexivity |].
  cbn. do 5 right. left. reflexivity.
Qed.

(** X14. The wallet client plays no part before the submission.  Run the
    request without it: if that throws, the request itself throws the same
    error after the same calls; if that returns a descriptor, the request
    makes the same calls and then submits exactly that descriptor. *)
Theorem execution_submits_the_quote (req : DepositParams) (w : World)
    (wc : WalletClient) :
  walletClient req = Some wc ->
  match plan (without_walletClient req) w with
  | (Threw e, tr, w') => plan req w = (Threw e, tr, w')
  | (Returned (inr _), _, _) => False
  | (Returned (inl tx), tr, w5) =>
      let send := sendTransaction wc tx (wallet req) in
      plan req w =
      match handle _ send w5 with
      | (Normal h, w6) =>
          match handle _ (waitForTransactionReceipt h) w6 with
          | (Normal rc, w7) =>
              (Returned (inr {| hash := h; receipt := rc |}),
               tr ++ [Entry send (Normal h);
                      Entry (waitForTransactionReceipt h) (Normal rc)], w7)
          | (Abrupt reason, w7) =>
              (Threw (LibraryError reason),
               tr ++ [Entry send (Normal h);
                      Entry (waitForTransactionReceipt h) (Abrupt reason)], w7)
          end
      | (Abrupt reason, w6) =>
          (Threw (LibraryError reason), tr ++ [Entry send (Abrupt reason)], w6)
      end
  end.
Proof.
  intros Hsome. unfold deposit, without_walletClient.
  cbn [wallet vault amount walletClient]. rewrite Hsome.
  cbn. repeat (branch; cbn); reflexivity.
Qed.

(** X15. Against a [SimpleVault], whose [maxDeposit] is [type(uint256).max],
    and a token whose balances are [uint256], [deposit] never throws
    [AmountExceedsMaxDepositError]: an amount above the capacity is above
    every balance and is stopped by the balance check. *)
Theorem simple_vault_never_exceeds (req : DepositParams) (w : World) :
  SimpleVault.vault_is_SimpleVault handle ->
  SimpleVault.balances_are_uint256 handle ->
  fst (fst (plan req w)) <> Threw AmountExceedsMaxDepositError.
Proof.
  intros Hvault Hbalances Hthrow.
  destruct (plan req w) as [[o tr] w'] eqn:Hrun. cbn in Hthrow. subst o.
  paths_in Hrun; inversion Hrun; subst; guards;
    match goal with
    | Hb : handle Z (read_balanceOf _ _) _ = (Normal ?b, _),
      Hm : handle Z (read_maxDeposit _ _) _ = (Normal ?m, _) |- _ =>
        apply Hbalances in Hb; apply Hvault in Hm;
        unfold SimpleVault.maxDeposit in Hm; lia
    end.
Qed.

End Properties.

(** X16. The five domain errors carry pairwise different messages: a caller
    can tell them apart by [message] alone. *)
Theorem domain_messages_distinct (e1 e2 : Error) :
  is_domain_error e1 = true ->
  is_domain_error e2 = true ->
  message e1 = message e2 ->
  e1 = e2.
Proof.
  intros H1 H2 Hmsg.
  destruct e1; try discriminate H1;
    destruct e2; try discriminate H2;
    solve [reflexivity | discriminate Hmsg].
Qed.

(** * The properties on the simulated node *)

Section Concrete.

Import Sample.

Ltac concrete :=
  repeat match goal with
  | |- _ /\ _ => split
  | |- exists _, _ => eexists
  | |- locally_valid _ => unfold locally_valid
  | |- checks_pass _ _ _ _ _ _ _ _ => unfold checks_pass
  | |- _ <> _ => discriminate
  | |- _ = _ => reflexivity
  | |- _ < _ => reflexivity
  | |- _ <= _ => discriminate
  end.

(** A quote on the funded node: 90 005 gas estimated, 9 000 added (the
    half unit of the tenth is dropped). *)
Example quote_on_funded_node :
  fst (fst (run node (deposit encode (quote 100)) (funded success))) =
  Returned (inl {| data := ("0x6e553f65"
                     ++ "0000000000000000000000000000000000000000000000000000000000000064"
                     ++ "000000000000000000000000f39fd6e51aad88f6f4ce6ab8827279cfffb92266")%string;
                   from := alice;
                   to := simpleVault;
                   value := 0;
                   gas := 99005 |}).
Proof. reflexivity. Qed.

(** The negative amount of the test suite, with a wallet client at hand. *)
Example negative_amount_on_funded_node :
  run node (deposit encode (execute (-1))) (funded success) =
  (Threw InvalidAmountError, [], funded success).
Proof. reflexivity. Qed.

(** An amount of 100 against a balance of 99, then against an allowance of
    99, then against a capacity of 99. *)
Lemma remote_checks_in_order_witness :
  locally_valid (quote 100) /\
  run node (deposit encode (quote 100)) (with_balance 99 (funded success)) =
  (Threw NotEnoughBalanceError,
   [ Entry (read_asset simpleVault) (Normal usdc);
     Entry (read_balanceOf usdc alice) (Normal 99) ],
   with_balance 99 (funded success)) /\
  fst (fst (run node (deposit encode (quote 100))
              (with_allowance 99 (funded success)))) =
  Threw MissingAllowanceError /\
  fst (fst (run node (deposit encode (quote 100))
              (with_maxDeposit 99 (funded success)))) =
  Threw AmountExceedsMaxDepositError.
Proof.
  split; [concrete |]. split; [| split].
  - apply (proj1 (remote_checks_in_order encode node (quote 100)
                    (with_balance 99 (funded success)) _ _ usdc 99
                    ltac:(concrete) eq_refl eq_refl)).
    reflexivity.
  - rewrite (proj1 (proj2 (remote_checks_in_order encode node (quote 100)
                             (with_allowance 99 (funded success)) _ _
                             usdc 1000000000 ltac:(concrete) eq_refl eq_refl)
                      ltac:(discriminate) 99 _ eq_refl)
               ltac:(reflexivity)).
    reflexivity.
  - rewrite (proj2 (proj2 (remote_checks_in_order encode node (quote 100)
                             (with_maxDeposit 99 (funded success)) _ _
                             usdc 1000000000 ltac:(concrete) eq_refl eq_refl)
                      ltac:(discriminate) 1000000000 _ eq_refl)
               ltac:(discriminate) 99 _ eq_refl ltac:(reflexivity)).
    reflexivity.
Defined.

Lemma invalid_amount_before_any_call_witness :
  amount (execute 0) <= 0 /\
  run node (deposit encode (execute 0)) (funded success) =
  (Threw InvalidAmountError, [], funded success).
Proof.
  split; [discriminate |].
  apply (invalid_amount_before_any_call encode node (execute 0) (funded success)).
  discriminate.
Defined.

Lemma zero_address_is_invalid_receiver_witness :
  run node
    (deposit encode
       {| wallet := alice; vault := ZERO_ADDRESS; amount := 100; walletClient := Some tt |})
    (funded success) =
  (Threw InvalidReceiverError, [], funded success).
Proof.
  apply (zero_address_is_invalid_receiver encode node).
  - reflexivity.
  - right. reflexivity.
Defined.

Lemma gas_limit_is_estimate_plus_tenth_witness :
  exists r tr w',
    run node (deposit encode (quote 100)) (funded success) = (Returned r, tr, w') /\
    exists g tx,
      gas_estimates tr = [g] /\ descriptors r tr = [tx] /\
      gas tx = g + (g * 10) ÷ 100 /\ (0 <= g -> gas tx = g + g * 10 / 100).
Proof.
  do 3 eexists. split; [reflexivity |].
  eapply (gas_limit_is_estimate_plus_tenth encode node (quote 100) (funded success)).
  reflexivity.
Defined.

Lemma quote_returns_descriptor_witness :
  checks_pass node (quote 100) (funded success)
    usdc 1000000000 1000000000 (2 ^ 256 - 1) (funded success) /\
  exists tx : Transaction,
    fst (fst (run node (deposit encode (quote 100)) (funded success))) =
      Returned (inl tx) /\
    value tx = 0 /\ to tx = simpleVault /\ from tx = alice /\
    encode 100 alice = Normal (data tx).
Proof.
  split; [concrete |].
  destruct (quote_returns_descriptor encode node (quote 100)
              (funded success) (funded success) (funded success)
              usdc 1000000000 1000000000 (2 ^ 256 - 1) 90005
              "0x6e553f650000000000000000000000000000000000000000000000000000000000000064000000000000000000000000f39fd6e51aad88f6f4ce6ab8827279cfffb92266"%string
              ltac:(concrete) eq_refl eq_refl eq_refl)
    as (tx & Hrun & Hvalue & Hto & Hfrom & Hdata).
  exists tx. rewrite Hrun. repeat split; assumption.
Defined.

Lemma result_shape_follows_submitter_witness :
  exists r tr w',
    run node (deposit encode (execute 100)) (funded success) = (Returned r, tr, w') /\
    (is_descriptor r = true <-> walletClient (execute 100) = None) /\
    (is_execution_result r = true <-> walletClient (execute 100) <> None).
Proof.
  do 3 eexists. split; [reflexivity |].
  match goal with
  | |- (is_descriptor ?r = true <-> _) /\ _ =>
      pose proof (proj1 (result_shape_follows_submitter encode node
                           (execute 100) (funded success))
                    (Returned r) _ _ eq_refl) as H
  end.
  cbv beta iota in H. destruct H as (Hd & He & _). split; assumption.
Defined.

(** C6 as stated fails: with a wallet that refuses to sign, a request that
    passes every check and carries a wallet client neither returns an
    execution result nor fails with one of the five domain errors; the
    library's rejection propagates. *)
Lemma refused_signature_is_a_third_outcome :
  checks_pass Faulty.refusing_wallet (execute 100) (funded success)
    usdc 1000000000 1000000000 (2 ^ 256 - 1) (funded success) /\
  walletClient (execute 100) = Some tt /\
  fst (fst (run Faulty.refusing_wallet (deposit encode (execute 100)) (funded success))) =
    Threw (LibraryError "UserRejectedRequestError"%string) /\
  is_domain_error (LibraryError "UserRejectedRequestError"%string) = false /\
  (forall r : Transaction + DepositResult,
     fst (fst (run Faulty.refusing_wallet (deposit encode (execute 100)) (funded success))) <>
     Returned r).
Proof.
  split; [concrete |]. split; [reflexivity |]. split; [reflexivity |].
  split; [reflexivity |]. intros r. discriminate.
Defined.

(** C7 as stated fails: on a node that mines the deposit as reverted, a
    request that passes every check and carries a wallet client still gets a
    result back, and the receipt in it says [reverted]. *)
Lemma reverted_receipt_is_returned :
  checks_pass node (execute 100) (funded reverted)
    usdc 1000000000 1000000000 (2 ^ 256 - 1) (funded reverted) /\
  walletClient (execute 100) = Some tt /\
  exists res : DepositResult,
    fst (fst (run node (deposit encode (execute 100)) (funded reverted))) =
      Returned (inr res) /\
    status (receipt res) = reverted /\
    status (receipt res) <> success.
Proof.
  split; [concrete |]. split; [reflexivity |].
  eexists. split; [reflexivity |]. split; [reflexivity | discriminate].
Defined.

Lemma node_receipts_echo : receipts_echo node.
Proof.
  intros wc tx account h rc w w1 w2 Hsend Hwait.
  cbn in Hsend. injection Hsend as _ <-.
  cbn in Hwait. injection Hwait as <- _.
  split; reflexivity.
Qed.

(** On the node that mines the deposit as reverted. *)
Lemma execution_returns_hash_and_receipt_witness :
  checks_pass node (execute 100) (funded reverted)
    usdc 1000000000 1000000000 (2 ^ 256 - 1) (funded reverted) /\
  exists (tr : trace) (res : DepositResult),
    fst (run node (deposit encode (execute 100)) (funded reverted)) =
    (Returned (inr res), tr) /\
    hash res = "0x5e9d"%string /\
    status (receipt res) = reverted /\
    receipt_from (receipt res) = alice /\
    receipt_to (receipt res) = simpleVault.
Proof.
  split; [concrete |].
  destruct (execution_returns_hash_and_receipt encode node (execute 100)
              (funded reverted) (funded reverted) (funded reverted) _ _
              usdc 1000000000 1000000000 (2 ^ 256 - 1) 90005 _ _ tt _
              ltac:(concrete) eq_refl eq_refl eq_refl eq_refl eq_refl)
    as (tr & res & Hrun & Hhash & Hreceipt & _ & _ & _ & Hecho).
  destruct (Hecho node_receipts_echo) as [Hfrom Hto].
  exists tr, res. rewrite Hrun, Hhash, Hreceipt.
  split; [reflexivity |]. split; [reflexivity |]. split; [reflexivity |].
  rewrite <- Hreceipt. split; assumption.
Defined.

(** An allowance of 99 against an amount of 100, with a wallet client at
    hand: the run stops at the allowance read. *)
Lemma domain_error_sends_nothing_witness :
  exists tr w',
    run node (deposit encode (execute 100)) (with_allowance 99 (funded success)) =
      (Threw MissingAllowanceError, tr, w') /\
    sent_transactions tr = [] /\ forallb entry_is_read tr = true.
Proof.
  do 2 eexists. split; [reflexivity |].
  eapply (domain_error_sends_nothing encode node (execute 100)
            (with_allowance 99 (funded success))).
  - reflexivity.
  - reflexivity.
Defined.


(** ** The further properties on the simulated node *)

Lemma not_enough_balance_cause_witness :
  exists tr w',
    run node (deposit encode (execute 100)) (with_balance 99 (funded success)) =
      (Threw NotEnoughBalanceError, tr, w') /\
    locally_valid (execute 100) /\
    exists (asset : Address) (balance : Z),
      tr = [ Entry (read_asset (vault (execute 100))) (Normal asset);
             Entry (read_balanceOf asset (wallet (execute 100))) (Normal balance) ] /\
      balance < amount (execute 100).
Proof.
  do 2 eexists. split; [reflexivity |].
  eapply (not_enough_balance_cause encode node (execute 100)
            (with_balance 99 (funded success))).
  reflexivity.
Defined.

Lemma missing_allowance_cause_witness :
  exists tr w',
    run node (deposit encode (execute 100)) (with_allowance 99 (funded success)) =
      (Threw MissingAllowanceError, tr, w') /\
    locally_valid (execute 100) /\
    exists (asset : Address) (balance allowance : Z),
      tr = [ Entry (read_asset (vault (execute 100))) (Normal asset);
             Entry (read_balanceOf asset (wallet (execute 100))) (Normal balance);
             Entry (read_allowance asset (wallet (execute 100)) (vault (execute 100)))
               (Normal allowance) ] /\
      amount (execute 100) <= balance /\
      allowance < amount (execute 100).
Proof.
  do 2 eexists. split; [reflexivity |].
  eapply (missing_allowance_cause encode node (execute 100)
            (with_allowance 99 (funded success))).
  reflexivity.
Defined.

Lemma exceeds_max_deposit_cause_witness :
  exists tr w',
    run node (deposit encode (execute 100)) (with_maxDeposit 99 (funded success)) =
      (Threw AmountExceedsMaxDepositError, tr, w') /\
    locally_valid (execute 100) /\
    exists (asset : Address) (balance allowance maxDeposit : Z),
      tr = validation_reads (execute 100) asset balance allowance maxDeposit /\
      amount (execute 100) <= balance /\
      amount (execute 100) <= allowance /\
      maxDeposit < amount (execute 100).
Proof.
  do 2 eexists. split; [reflexivity |].
  eapply (exceeds_max_deposit_cause encode node (execute 100)
            (with_maxDeposit 99 (funded success))).
  reflexivity.
Defined.

Lemma returned_implies_checks_passed_witness :
  exists r tr w',
    run node (deposit encode (execute 1)) (funded success) = (Returned r, tr, w') /\
    exists (asset : Address) (balance allowance maxDeposit : Z) (w4 : Chain),
      checks_pass node (execute 1) (funded success) asset balance allowance maxDeposit w4 /\
      firstn 4 tr = validation_reads (execute 1) asset balance allowance maxDeposit.
Proof.
  do 3 eexists. split; [reflexivity |].
  eapply (returned_implies_checks_passed encode node (execute 1) (funded success)).
  reflexivity.
Defined.

Lemma quote_mode_only_queries_witness :
  walletClient (quote 100) = None /\
  forallb entry_is_query
    (snd (fst (run node (deposit encode (quote 100)) (funded success)))) = true /\
  (length (snd (fst (run node (deposit encode (quote 100)) (funded success)))) <= 5)%nat /\
  submissions (snd (fst (run node (deposit encode (quote 100)) (funded success)))) = [].
Proof.
  split; [reflexivity |].
  apply (quote_mode_only_queries encode node (quote 100) (funded success)).
  reflexivity.
Defined.

Lemma gas_buffer_bounds_witness :
  exists r tr w',
    run node (deposit encode (quote 100)) (funded success) = (Returned r, tr, w') /\
    exists (g : Z) (tx : Transaction),
      gas_estimates tr = [g] /\
      descriptors r tr = [tx] /\
      (0 <= g ->
       g <= gas tx /\
       10 * (gas tx - g) <= g < 10 * (gas tx - g) + 10 /\
       (g < 10 -> gas tx = g)).
Proof.
  do 3 eexists. split; [reflexivity |].
  eapply (gas_buffer_bounds encode node (quote 100) (funded success)).
  reflexivity.
Defined.

Lemma rejected_send_is_not_confirmed_witness :
  checks_pass Faulty.refusing_wallet (execute 100) (funded success)
    usdc 1000000000 1000000000 (2 ^ 256 - 1) (funded success) /\
  fst (fst (run Faulty.refusing_wallet (deposit encode (execute 100)) (funded success))) =
  Threw (LibraryError "UserRejectedRequestError"%string) /\
  map entry_step
    (snd (fst (run Faulty.refusing_wallet (deposit encode (execute 100)) (funded success)))) =
  [AssetRead; BalanceRead; AllowanceRead; MaxDepositRead; GasEstimation; Submission].
Proof.
  split; [concrete |].
  rewrite (rejected_send_is_not_confirmed encode Faulty.refusing_wallet (execute 100)
             (funded success) (funded success) (funded success) (funded success)
             usdc 1000000000 1000000000 (2 ^ 256 - 1) 90005
             "0x6e553f650000000000000000000000000000000000000000000000000000000000000064000000000000000000000000f39fd6e51aad88f6f4ce6ab8827279cfffb92266"%string
             tt "UserRejectedRequestError"%string
             ltac:(concrete) eq_refl eq_refl eq_refl eq_refl).
  split; reflexivity.
Defined.

Lemma rejected_wait_after_submission_witness :
  checks_pass Faulty.silent_node (execute 100) (funded success)
    usdc 1000000000 1000000000 (2 ^ 256 - 1) (funded success) /\
  exists tr : trace,
    fst (run Faulty.silent_node (deposit encode (execute 100)) (funded success)) =
      (Threw (LibraryError "WaitForTransactionReceiptTimeoutError"%string), tr) /\
    length (submissions tr) = 1%nat.
Proof.
  split; [concrete |].
  destruct (rejected_wait_after_submission encode Faulty.silent_node (execute 100)
              (funded success) (funded success) (funded success) _ _
              usdc 1000000000 1000000000 (2 ^ 256 - 1) 90005 _ _
              tt "WaitForTransactionReceiptTimeoutError"%string
              ltac:(concrete) eq_refl eq_refl eq_refl eq_refl eq_refl)
    as (tr & Hrun & Hsub & _).
  exists tr. rewrite Hrun, Hsub. split; reflexivity.
Defined.

Lemma execution_submits_the_quote_witness :
  walletClient (execute 100) = Some tt /\
  match run node (deposit encode (without_walletClient (execute 100))) (funded reverted) with
  | (Returned (inl tx), tr, w5) =>
      run node (deposit encode (execute 100)) (funded reverted) =
      (Returned (inr {| hash := "0x5e9d"%string;
                        receipt := {| status := reverted;
                                      receipt_from := alice;
                                      receipt_to := simpleVault |} |}),
       tr ++ [ Entry (sendTransaction tt tx alice) (Normal "0x5e9d"%string);
               Entry (waitForTransactionReceipt "0x5e9d"%string)
                 (Normal {| status := reverted;
                            receipt_from := alice;
                            receipt_to := simpleVault |}) ],
       submit tx w5)
  | _ => False
  end.
Proof.
  split; [reflexivity |].
  exact (execution_submits_the_quote encode node (execute 100) (funded reverted) tt eq_refl).
Defined.

Lemma simple_vault_node_is_SimpleVault : SimpleVault.vault_is_SimpleVault SimpleVault.node.
Proof.
  intros vault receiver w w1 m Hcall. cbn in Hcall. now inversion Hcall.
Qed.

Lemma simple_vault_node_balances : SimpleVault.balances_are_uint256 SimpleVault.node.
Proof.
  intros asset holder w w1 b Hcall.
  assert (Hb : b = chain_balance w mod 2 ^ 256)
    by (injection Hcall as Hb _; symmetry; exact Hb).
  rewrite Hb. unfold SimpleVault.MAX_UINT256.
  pose proof (Z.mod_pos_bound (chain_balance w) (2 ^ 256) ltac:(reflexivity)) as Hmod.
  revert Hmod. generalize (chain_balance w mod 2 ^ 256). generalize (2 ^ 256). lia.
Qed.

(** The largest [uint256] as amount, as in the test suite: the balance
    check stops it. *)
Lemma simple_vault_never_exceeds_witness :
  fst (fst (run SimpleVault.node
              (deposit encode (execute SimpleVault.MAX_UINT256)) (funded success))) <>
    Threw AmountExceedsMaxDepositError /\
  fst (fst (run SimpleVault.node
              (deposit encode (execute SimpleVault.MAX_UINT256)) (funded success))) =
    Threw NotEnoughBalanceError.
Proof.
  split.
  - apply (simple_vault_never_exceeds encode SimpleVault.node
             (execute SimpleVault.MAX_UINT256) (funded success)
             simple_vault_node_is_SimpleVault simple_vault_node_balances).
  - reflexivity.
Defined.

Lemma domain_messages_distinct_witness :
  message InvalidAmountError = "Invalid amount"%string /\
  InvalidAmountError = InvalidAmountError.
Proof.
  split; [reflexivity |].
  apply (domain_messages_distinct InvalidAmountError InvalidAmountError);
    reflexivity.
Defined.

End Concrete.

(** * Properties of [AnvilAccountManager] *)

Section AnvilProperties.

Import Task AnvilUtils.

Context {Double World : Type}.
Variable toEth : Z -> Double.
Variable handle : forall X : Type, rpc X -> World -> completion X * World.

Ltac simp := cbn -[Z.ltb Z.leb orb Z.of_nat Z.to_nat nth].

(** The bounds test of [getAccount]. *)
Lemma out_of_range_test (index : Z) (accounts : list Address) :
  (index <? 0) || (Z.of_nat (length accounts) <=? index) = true <->
  index < 0 \/ Z.of_nat (length accounts) <= index.
Proof.
  rewrite orb_true_iff, Z.ltb_lt, Z.leb_le. reflexivity.
Qed.

(** X17. [getAccount] with an index below zero or not below the number of
    accounts the node lists (any index at all when it lists none) throws the
    out-of-range error naming the index and the count, after the one
    [eth_accounts] request: no balance is asked for. *)
Theorem getAccount_out_of_range (index : Z) (accounts : list Address) (w w1 : World) :
  handle _ eth_accounts w = (Normal accounts, w1) ->
  index < 0 \/ Z.of_nat (length accounts) <= index ->
  exec handle (getAccount toEth index) w =
  (Rejected (IndexOutOfRange index (length accounts)),
   [Exchange eth_accounts (Normal accounts)], w1).
Proof.
  intros Hlist Hout. apply out_of_range_test in Hout.
  unfold getAccount, getAllAccounts. simp. unfold Address in *.
  rewrite Hlist. simp. rewrite Hout. reflexivity.
Qed.

(** X18. [getAccount] with an index in range returns the account at that
    position of the node's list, with the balance the node reports for that
    address. *)
Theorem getAccount_in_range (index : Z) (accounts : list Address) (w w1 : World) :
  handle _ eth_accounts w = (Normal accounts, w1) ->
  0 <= index < Z.of_nat (length accounts) ->
  exists a : Address,
    nth_error accounts (Z.to_nat index) = Some a /\
    forall (b : Z) (w2 : World),
      handle _ (getBalance a) w1 = (Normal b, w2) ->
      exec handle (getAccount toEth index) w =
      (Fulfilled {| address := a; index := index; balance := b;
                    balanceInEth := toEth b |},
       [Exchange eth_accounts (Normal accounts);
        Exchange (getBalance a) (Normal b)], w2).
Proof.
  intros Hlist Hin.
  assert (Hlt : (Z.to_nat index < length accounts)%nat) by lia.
  exists (nth (Z.to_nat index) accounts ""%string). split.
  - now apply nth_error_nth'.
  - intros b w2 Hbal.
    assert (Htest : (index <? 0) || (Z.of_nat (length accounts) <=? index) = false).
    { apply orb_false_iff. split; [apply Z.ltb_ge | apply Z.leb_gt]; lia. }
    unfold getAccount, getAllAccounts. simp. unfold Address in *.
    rewrite Hlist. simp. rewrite Htest. simp. rewrite Hbal. reflexivity.
Qed.

(** X19. For an integer index, whatever [getAccount] returns is an account
    of the node: the list was obtained, the index was within it, the
    address is the one at that index, and the index is echoed. *)
Theorem getAccount_returns_listed_account (i : Z) (w w' : World)
    (acct : @AnvilAccount Double) (tr : list exchange) :
  exec handle (getAccount toEth i) w = (Fulfilled acct, tr, w') ->
  exists (accounts : list Address) (w1 : World),
    handle _ eth_accounts w = (Normal accounts, w1) /\
    0 <= i < Z.of_nat (length accounts) /\
    nth_error accounts (Z.to_nat i) = Some (address acct) /\
    index acct = i /\
    handle _ (getBalance (address acct)) w1 = (Normal (balance acct), w').
Proof.
  unfold getAccount, getAllAccounts. simp. unfold Address in *.
  destruct (handle (list string) eth_accounts w) as [[accounts | reason] w1]; simp;
    [| intros Hrun; discriminate Hrun].
  destruct ((i <? 0) || (Z.of_nat (length accounts) <=? i)) eqn:Htest; simp;
    [intros Hrun; discriminate Hrun |].
  apply orb_false_iff in Htest. destruct Htest as [Hneg Hlen].
  apply Z.ltb_ge in Hneg. apply Z.leb_gt in Hlen.
  destruct (handle _ (getBalance _) w1) as [[b | reason] w2] eqn:Hbal; simp;
    [| intros Hrun; discriminate Hrun].
  intros Hrun. inversion Hrun; subst. cbn.
  exists accounts, w1. repeat split; try assumption.
  apply nth_error_nth'. lia.
Qed.

(** X20. A failing [eth_accounts] request is rethrown by [getAccount] as
    the failed-to-get-accounts error carrying the client's error; the index
    is not looked at and no balance is asked for. *)
Theorem getAccount_wraps_client_error (i : Z) (w w1 : World) (error : string) :
  handle _ eth_accounts w = (Abrupt error, w1) ->
  exec handle (getAccount toEth i) w =
  (Rejected (FailedToGetAccounts error),
   [Exchange eth_accounts (Abrupt error)], w1).
Proof.
  intros Hlist. unfold getAccount, getAllAccounts. cbn. rewrite Hlist.
  reflexivity.
Qed.

(** X21. [isAnvilRunning] never throws: it makes the one [getBlockNumber]
    request and returns [true] exactly when that request is fulfilled. *)
Theorem isAnvilRunning_never_throws (w : World) :
  exists b : bool,
    fst (exec handle (@isAnvilRunning) w) =
      (Fulfilled b,
       [Exchange getBlockNumber (fst (handle _ getBlockNumber w))]) /\
    (b = true <-> exists n : Z, fst (handle _ getBlockNumber w) = Normal n).
Proof.
  unfold isAnvilRunning. cbn.
  destruct (handle _ getBlockNumber w) as [[n | reason] w1]; cbn.
  - exists true. split; [reflexivity |]. split; [eauto | reflexivity].
  - exists false. split; [reflexivity |].
    split; [discriminate | intros [n Hn]; discriminate Hn].
Qed.

End AnvilProperties.

Section AnvilConcrete.

Import Task AnvilUtils Sample.

Lemma getAccount_out_of_range_witness :
  exec (anvil [alice; usdc] 7) (getAccount Z.to_nat 2) tt =
  (Rejected (IndexOutOfRange 2 2), [Exchange eth_accounts (Normal [alice; usdc])], tt) /\
  exec (anvil [] 7) (getDefaultAccount Z.to_nat) tt =
  (Rejected (IndexOutOfRange 0 0), [Exchange eth_accounts (Normal [])], tt).
Proof.
  split.
  - apply (getAccount_out_of_range Z.to_nat (anvil [alice; usdc] 7) 2 [alice; usdc] tt tt eq_refl).
    right. discriminate.
  - apply (getAccount_out_of_range Z.to_nat (anvil [] 7) 0 [] tt tt eq_refl).
    right. discriminate.
Defined.

Lemma getAccount_in_range_witness :
  fst (fst (exec (anvil [alice; usdc] 7) (getAccount Z.to_nat 1) tt)) =
  Fulfilled {| address := usdc; index := 1; balance := 7; balanceInEth := 7%nat |}.
Proof.
  destruct (getAccount_in_range Z.to_nat (anvil [alice; usdc] 7) 1 [alice; usdc] tt tt
              eq_refl ltac:(split; [discriminate | reflexivity]))
    as (a & Hnth & Hrun).
  injection Hnth as <-.
  rewrite (Hrun 7 tt eq_refl). reflexivity.
Defined.

Lemma getAccount_returns_listed_account_witness :
  exists (accounts : list Address) (w1 : unit),
    anvil [alice; usdc] 7 _ eth_accounts tt = (Normal accounts, w1) /\
    0 <= 1 < Z.of_nat (length accounts) /\
    nth_error accounts (Z.to_nat 1) = Some usdc.
Proof.
  destruct (getAccount_returns_listed_account Z.to_nat (anvil [alice; usdc] 7) 1 tt tt
              {| address := usdc; index := 1; balance := 7; balanceInEth := 7%nat |}
              _ eq_refl)
    as (accounts & w1 & Hlist & Hin & Hnth & _).
  exists accounts, w1. repeat split; try assumption; apply Hin.
Defined.

Lemma getAccount_wraps_client_error_witness :
  exec unreachable (getAccount Z.to_nat 0) tt =
  (Rejected (FailedToGetAccounts "HttpRequestError"),
   [Exchange eth_accounts (Abrupt "HttpRequestError")], tt).
Proof.
  apply (getAccount_wraps_client_error Z.to_nat unreachable 0 tt tt
           "HttpRequestError"%string eq_refl).
Defined.

End AnvilConcrete.

(** * Properties of the claim application *)

Section ClaimAppProperties.

Import Task ClaimApp.

(** Removing an id leaves no occurrence of it. *)
Lemma includes_after_removal (id : string) (ids : list string) :
  includes id (filter (fun x => negb (x =? id)%string) ids) = false.
Proof.
  unfold includes. induction ids as [| x ids IH]; [reflexivity |].
  cbn. destruct (String.eqb_spec x id) as [Heq | Hneq]; cbn.
  - exact IH.
  - rewrite IH. rewrite (proj2 (String.eqb_neq id x)) by congruence. reflexivity.
Qed.

Lemma includes_after_append (id : string) (ids : list string) :
  includes id (ids ++ [id]) = true.
Proof.
  unfold includes. rewrite existsb_app. cbn.
  rewrite String.eqb_refl. apply orb_true_r.
Qed.

(** Removing an id that was appended to a list without it gives the list. *)
Lemma removal_undoes_append (id : string) (ids : list string) :
  includes id ids = false ->
  filter (fun x => negb (x =? id)%string) (ids ++ [id]) = ids.
Proof.
  unfold includes. induction ids as [| x ids IH]; cbn.
  - intros _. rewrite String.eqb_refl. reflexivity.
  - intros Hnot. apply orb_false_iff in Hnot. destruct Hnot as [Hx Hrest].
    rewrite String.eqb_sym in Hx. rewrite Hx. cbn. now rewrite IH.
Qed.

(** Membership of another id is untouched by adding or removing [id]. *)
Lemma includes_other (id id' : string) (ids : list string) :
  id' <> id ->
  includes id' (filter (fun x => negb (x =? id)%string) ids) = includes id' ids /\
  includes id' (ids ++ [id]) = includes id' ids.
Proof.
  intros Hneq. unfold includes. split.
  - induction ids as [| x ids IH]; [reflexivity |].
    cbn. destruct (String.eqb_spec x id) as [Heq | Hx]; cbn.
    + subst x. rewrite (proj2 (String.eqb_neq id' id) Hneq). exact IH.
    + now rewrite IH.
  - rewrite existsb_app. cbn.
    rewrite (proj2 (String.eqb_neq id' id) Hneq). now rewrite !orb_false_r.
Qed.

Lemma favoritesKey_injective (a b : string) :
  favoritesKey a = favoritesKey b -> a = b.
Proof.
  unfold favoritesKey. cbn. intros Hkey. now inversion Hkey.
Qed.

Lemma readFavorites_setItem_same (a : string) (ids : list string) (storage : Storage) :
  readFavorites a (setItem (favoritesKey a) ids storage) = ids.
Proof.
  unfold readFavorites, setItem. now rewrite String.eqb_refl.
Qed.

Lemma readFavorites_setItem_other (a b : string) (ids : list string) (storage : Storage) :
  b <> a ->
  readFavorites b (setItem (favoritesKey a) ids storage) = readFavorites b storage.
Proof.
  intros Hneq. unfold readFavorites, setItem.
  destruct (String.eqb_spec (favoritesKey b) (favoritesKey a)) as [Hkey | _];
    [| reflexivity].
  apply favoritesKey_injective in Hkey. contradiction.
Qed.

(** X22. After a click on the heart by a connected account, the heart shows
    what the storage holds, whatever it showed and whatever was stored
    before: the new [isFavorited] is the value the effect would compute
    from the new storage. *)
Theorem favorite_click_agrees_with_storage (isConnected : bool)
    (address : option string) (a id : string) (isFavorited : bool)
    (storage : Storage) :
  connectedAddress isConnected address = Some a ->
  fst (handleFavorite isConnected address id isFavorited storage) =
  syncFavorited isConnected address id
    (snd (handleFavorite isConnected address id isFavorited storage)).
Proof.
  intros Hconn. unfold handleFavorite, syncFavorited. rewrite Hconn.
  cbv beta iota zeta delta [fst snd].
  rewrite readFavorites_setItem_same.
  destruct isFavorited; cbv beta iota zeta delta [negb].
  - now rewrite includes_after_removal.
  - now rewrite includes_after_append.
Qed.

(** X23. Adding a favourite and removing it again is a round trip: starting
    from a card not favourited whose id is not stored, two clicks leave the
    heart off and every account's stored favourites as they were. *)
Theorem favorite_add_then_remove (isConnected : bool) (address : option string)
    (a id : string) (storage : Storage) :
  connectedAddress isConnected address = Some a ->
  includes id (readFavorites a storage) = false ->
  let '(f1, s1) := handleFavorite isConnected address id false storage in
  let '(f2, s2) := handleFavorite isConnected address id f1 s1 in
  f1 = true /\ f2 = false /\
  forall b : string, readFavorites b s2 = readFavorites b storage.
Proof.
  intros Hconn Hnot. unfold handleFavorite. rewrite Hconn.
  cbv beta iota zeta delta [negb].
  repeat split. intros b.
  rewrite readFavorites_setItem_same.
  destruct (String.eqb_spec b a) as [-> | Hneq].
  - rewrite readFavorites_setItem_same. now apply removal_undoes_append.
  - now rewrite !readFavorites_setItem_other by assumption.
Qed.

(** X24. A click touches one id of one account: the favourites stored for
    any other address are unchanged, and so is the membership of any other
    id in the clicking account's favourites. *)
Theorem favorite_click_is_local (isConnected : bool) (address : option string)
    (a id : string) (isFavorited : bool) (storage : Storage) :
  connectedAddress isConnected address = Some a ->
  let s' := snd (handleFavorite isConnected address id isFavorited storage) in
  (forall b : string, b <> a -> readFavorites b s' = readFavorites b storage) /\
  (forall id' : string, id' <> id ->
     includes id' (readFavorites a s') = includes id' (readFavorites a storage)).
Proof.
  intros Hconn. unfold handleFavorite. rewrite Hconn.
  cbv beta iota zeta delta [fst snd]. split.
  - intros b Hneq. now apply readFavorites_setItem_other.
  - intros id' Hneq. rewrite readFavorites_setItem_same.
    destruct (includes_other id id' (readFavorites a storage) Hneq) as [Hrem Hadd].
    destruct isFavorited; assumption.
Qed.

(** X25. The claim button is enabled exactly when it reads "Claim Now":
    every other label (connect, switch network, processing) comes with a
    disabled button. *)
Theorem claim_enabled_iff_label (baseSepolia_id : Z) (isConnected isProcessing : bool)
    (chainId : option Z) :
  claimDisabled baseSepolia_id isConnected isProcessing chainId = false <->
  claimLabel baseSepolia_id isConnected isProcessing chainId = "Claim Now"%string.
Proof.
  unfold claimDisabled, claimLabel.
  destruct isConnected, isProcessing,
    (match chainId with Some c => c =? baseSepolia_id | None => false end);
    cbn; split; intros H; solve [reflexivity | discriminate H].
Qed.

Section Collection.

Context {NFTData : Type}.
Variable id : NFTData -> string.

(** [find] returns the first element that passes the test. *)
Lemma find_is_first {A : Type} (p : A -> bool) (l : list A) (x : A) :
  find p l = Some x ->
  exists before after : list A,
    l = before ++ x :: after /\
    p x = true /\
    forall y, In y before -> p y = false.
Proof.
  induction l as [| a l IH]; [discriminate |].
  cbn. destruct (p a) eqn:Hpa.
  - intros Hfound. injection Hfound as <-.
    exists [], l. split; [reflexivity |]. split; [exact Hpa |].
    intros y [].
  - intros Hfound. destruct (IH Hfound) as (before & after & Hl & Hpx & Hbefore).
    exists (a :: before), after. split; [now rewrite Hl |]. split; [exact Hpx |].
    intros y [<- | Hy]; [exact Hpa | now apply Hbefore].
Qed.

(** X26. With NFTs loaded and nothing selected, the effect selects an NFT
    of the list: the first one whose id is "1" when there is one (no NFT
    before it in the list has that id), the first of the list otherwise. *)
Theorem selectDefault_picks_from_list (nfts : list NFTData) :
  nfts <> [] ->
  exists nft : NFTData,
    selectDefault id (Some nfts) None = Some nft /\
    In nft nfts /\
    ((exists n, In n nfts /\ id n = "1"%string) -> id nft = "1"%string) /\
    ((forall n, In n nfts -> id n <> "1"%string) -> hd_error nfts = Some nft) /\
    ((exists before after : list NFTData,
        nfts = before ++ nft :: after /\
        id nft = "1"%string /\
        forall n, In n before -> id n <> "1"%string)
     \/
     ((forall n, In n nfts -> id n <> "1"%string) /\ hd_error nfts = Some nft)).
Proof.
  intros Hne. destruct nfts as [| first rest]; [contradiction |].
  unfold selectDefault, defaultNFT.
  change (0 <? length (first :: rest))%nat with true. cbv iota.
  destruct (find (fun nft => (id nft =? "1")%string) (first :: rest)) as [nft |] eqn:Hfind.
  - pose proof (find_is_first _ _ _ Hfind) as (before & after & Hl & Hid' & Hbefore).
    apply find_some in Hfind. destruct Hfind as [Hin Hid].
    apply String.eqb_eq in Hid.
    exists nft. split; [reflexivity |]. split; [exact Hin |]. split; [| split].
    + intros _. exact Hid.
    + intros Hnone. exfalso. exact (Hnone nft Hin Hid).
    + left. exists before, after. split; [exact Hl |]. split; [exact Hid |].
      intros n Hn. apply String.eqb_neq. now apply Hbefore.
  - assert (Hnone : forall n, In n (first :: rest) -> id n <> "1"%string).
    { intros n Hin. pose proof (find_none _ _ Hfind n Hin) as Hn. cbn in Hn.
      now apply String.eqb_neq in Hn. }
    exists first. split; [reflexivity |]. split; [now left |]. split; [| split].
    + intros (n & Hin & Hid). exfalso. exact (Hnone n Hin Hid).
    + intros _. reflexivity.
    + right. split; [exact Hnone | reflexivity].
Qed.

Lemma otherNFTs_all_kept (nfts : list NFTData) (x : string) :
  (forall n, In n nfts -> id n <> x) ->
  otherNFTs id nfts (Some x) = nfts.
Proof.
  unfold otherNFTs. induction nfts as [| n nfts IH]; [reflexivity |].
  intros Hall. cbn.
  rewrite (proj2 (String.eqb_neq (id n) x)) by (apply Hall; now left).
  cbn. f_equal. apply IH. intros m Hm. apply Hall. now right.
Qed.

(** X27. When ids are unique, the page shows every NFT exactly once: the
    selected NFT together with "more from this collection" (the list
    without the selected id) is a rearrangement of the loaded list. *)
Theorem selected_and_others_cover_the_list (nfts : list NFTData) (selected : NFTData) :
  In selected nfts ->
  NoDup (map id nfts) ->
  Permutation nfts (selected :: otherNFTs id nfts (Some (id selected))).
Proof.
  induction nfts as [| n nfts IH]; [contradiction |].
  intros Hin Hnodup. cbn in Hnodup.
  apply NoDup_cons_iff in Hnodup. destruct Hnodup as [Hfresh Hnodup].
  destruct Hin as [-> | Hin].
  - unfold otherNFTs. cbn. rewrite String.eqb_refl. cbn.
    fold (otherNFTs id nfts (Some (id selected))).
    rewrite otherNFTs_all_kept; [reflexivity |].
    intros m Hm Heq. apply Hfresh. rewrite <- Heq. now apply in_map.
  - assert (Hneq : id n <> id selected).
    { intros Heq. apply Hfresh. rewrite Heq. now apply in_map. }
    unfold otherNFTs. cbn.
    rewrite (proj2 (String.eqb_neq (id n) (id selected)) Hneq). cbn.
    fold (otherNFTs id nfts (Some (id selected))).
    rewrite perm_swap. apply perm_skip. now apply IH.
Qed.

Context {World : Type}.
Variable handle : forall X : Type, @web NFTData X -> World -> completion X * World.

(** X28. [fetchNFTs] logs every failure exactly once and rethrows it
    unchanged, the log being its last action; a successful fetch logs
    nothing. *)
Theorem fetchNFTs_logs_what_it_throws (w : World) :
  match exec handle fetchNFTs w with
  | (Rejected e, tr, _) =>
      collect logged tr = [e] /\
      exists tr0 r, tr = tr0 ++ [Exchange (console_error "Error fetching NFTs:" e) r]
  | (Fulfilled _, tr, _) => collect logged tr = []
  end.
Proof.
  unfold fetchNFTs, logAndRethrow. cbn.
  destruct (handle _ (fetch _) w) as [[response | reason] w1]; cbn.
  - destruct (ok response); cbn.
    + destruct (handle _ (json response) w1) as [[data | reason] w2]; cbn.
      * reflexivity.
      * destruct (handle _ (console_error _ _) w2) as [r w3]; cbn.
        split; [reflexivity |].
        eexists [_; _], r. reflexivity.
    + destruct (handle _ (console_error _ _) w1) as [r w2]; cbn.
      split; [reflexivity |]. eexists [_], r. reflexivity.
  - destruct (handle _ (console_error _ _) w1) as [r w2]; cbn.
    split; [reflexivity |]. eexists [_], r. reflexivity.
Qed.

(** X29. A response that is not [ok] is never parsed: [fetchNFTs] throws the
    HTTP error carrying the response's status without calling
    [response.json()]. *)
Theorem fetchNFTs_rejects_bad_status (w w1 : World) (response : Response) :
  handle _ (fetch (API_BASE_URL ++ "/nfts")) w = (Normal response, w1) ->
  ok response = false ->
  fst (fst (exec handle fetchNFTs w)) = Rejected (HttpError (status response)) /\
  existsb parsed (snd (fst (exec handle fetchNFTs w))) = false.
Proof.
  intros Hfetch Hok. unfold fetchNFTs, logAndRethrow. cbn.
  cbn in Hfetch. rewrite Hfetch. cbn. rewrite Hok. cbn.
  destruct (handle _ (console_error _ _) w1) as [r w2]. cbn.
  split; reflexivity.
Qed.

End Collection.

End ClaimAppProperties.

Section ClaimAppConcrete.

Import Task ClaimApp.

Local Open Scope string_scope.

Lemma favorite_click_agrees_with_storage_witness :
  connectedAddress true (Some Sample.alice) = Some Sample.alice /\
  fst (handleFavorite true (Some Sample.alice) "2" false emptyStorage) = true /\
  syncFavorited true (Some Sample.alice) "2"
    (snd (handleFavorite true (Some Sample.alice) "2" false emptyStorage)) = true.
Proof.
  split; [reflexivity |]. split; [reflexivity |].
  rewrite <- (favorite_click_agrees_with_storage true (Some Sample.alice)
                Sample.alice "2" false emptyStorage eq_refl).
  reflexivity.
Defined.

Lemma favorite_add_then_remove_witness :
  let storage := setItem (favoritesKey Sample.alice) ["1"; "3"] emptyStorage in
  let '(f1, s1) := handleFavorite true (Some Sample.alice) "2" false storage in
  let '(f2, s2) := handleFavorite true (Some Sample.alice) "2" f1 s1 in
  readFavorites Sample.alice s1 = ["1"; "3"; "2"] /\
  f1 = true /\ f2 = false /\
  forall b : string, readFavorites b s2 = readFavorites b storage.
Proof.
  split; [reflexivity |].
  exact (favorite_add_then_remove true (Some Sample.alice) Sample.alice "2"
           (setItem (favoritesKey Sample.alice) ["1"; "3"] emptyStorage)
           eq_refl eq_refl).
Defined.

Lemma favorite_click_is_local_witness :
  let storage := setItem (favoritesKey Sample.alice) ["1"; "2"] emptyStorage in
  let s' := snd (handleFavorite true (Some Sample.alice) "2" true storage) in
  readFavorites Sample.alice s' = ["1"] /\
  (forall b : string, b <> Sample.alice -> readFavorites b s' = readFavorites b storage) /\
  (forall id' : string, id' <> "2" ->
     includes id' (readFavorites Sample.alice s') =
     includes id' (readFavorites Sample.alice storage)).
Proof.
  split; [reflexivity |].
  exact (favorite_click_is_local true (Some Sample.alice) Sample.alice "2" true
           (setItem (favoritesKey Sample.alice) ["1"; "2"] emptyStorage) eq_refl).
Defined.

(** Two NFTs with id "1": the earlier one is selected. *)
Lemma selectDefault_picks_from_list_witness :
  selectDefault fst (Some [("0", 10); ("1", 11); ("1", 12)]) None = Some ("1", 11) /\
  selectDefault fst (Some [("5", 10); ("7", 11)]) None = Some ("5", 10) /\
  exists nft : string * Z,
    selectDefault fst (Some [("0", 10); ("1", 11); ("1", 12)]) None = Some nft /\
    In nft [("0", 10); ("1", 11); ("1", 12)].
Proof.
  split; [reflexivity |]. split; [reflexivity |].
  destruct (selectDefault_picks_from_list fst [("0", 10); ("1", 11); ("1", 12)]
              ltac:(discriminate))
    as (nft & Hsel & Hin & _).
  exists nft. split; assumption.
Defined.

Lemma selected_and_others_cover_the_list_witness :
  otherNFTs ids ["0"; "1"; "2"] (Some "1") = ["0"; "2"] /\
  Permutation ["0"; "1"; "2"] ("1" :: otherNFTs ids ["0"; "1"; "2"] (Some (ids "1"))).
Proof.
  split; [reflexivity |].
  apply (selected_and_others_cover_the_list ids ["0"; "1"; "2"] "1").
  - right. left. reflexivity.
  - repeat constructor; cbn; intuition discriminate.
Defined.

Lemma fetchNFTs_rejects_bad_status_witness :
  exec (server 503 ["1"]) fetchNFTs tt =
  (Rejected (HttpError 503),
   [ Exchange (fetch "https://mint-api-production-7d50.up.railway.app/nfts")
       (Normal {| ok := false; status := 503 |});
     Exchange (console_error "Error fetching NFTs:" (HttpError 503)) (Normal tt) ],
   tt) /\
  fst (fst (exec (server 503 ["1"]) fetchNFTs tt)) =
    Rejected (HttpError (status {| ok := false; status := 503 |})) /\
  existsb parsed (snd (fst (exec (server 503 ["1"]) fetchNFTs tt))) = false.
Proof.
  split; [reflexivity |].
  apply (fetchNFTs_rejects_bad_status (server 503 ["1"]) tt tt
           {| ok := false; status := 503 |} eq_refl eq_refl).
Defined.

Example fetchNFTs_on_a_healthy_server :
  fst (fst (exec (server 200 ["1"; "2"]) fetchNFTs tt)) = Fulfilled ["1"; "2"].
Proof. reflexivity. Qed.

Example claim_button_on_another_chain :
  claimDisabled 84532 true false (Some 1) = true /\
  claimLabel 84532 true false (Some 1) = "Switch to Base Sepolia".
Proof. split; reflexivity. Qed.

End ClaimAppConcrete.
